(** * Bedrock OpenAI proxy: the two example clients

  A shallow embedding of [examples/python_httpx_client.py] (the asynchronous
  client [BedrockOpenAIClient]) and [examples/python_sync_client.py] (the
  blocking client [BedrockOpenAIClientSync]), and the properties of their
  request/response contract.

  Python objects live in a heap and are reached through references, the
  process environment, the standard output and the HTTP traffic are fields
  of an explicit [world], and a method is a computation in a state and
  exception monad over that world. *)

From Stdlib Require Import ZArith QArith Ascii.
From stdpp Require Import gmap strings list fin_maps.

Set Warnings "-register-all".
Set Default Proof Using "Type".

Open Scope string_scope.
Open Scope Z_scope.
Open Scope list_scope.

(** ** Python values *)

(** The values that [json.loads] produces and that [json=...] serialises:
    what a caller passes as [messages] is a list of such values. A [dict] is
    a finite map with string keys, a finite [float] is the rational its
    literal denotes (the clients only pass floats through). *)
Inductive json : Type :=
  | JNull
  | JBool (b : bool)
  | JInt (n : Z)
  | JFloat (q : Q)
  | JStr (s : string)
  | JList (l : list json)
  | JDict (d : gmap string json).

(** ** [str.rstrip] *)

(** [c in chars], for the character set given to [rstrip]. *)
Fixpoint char_in (c : ascii) (chars : string) : bool :=
  match chars with
  | EmptyString => false
  | String c' rest => if Ascii.eqb c c' then true else char_in c rest
  end.

(** [s.rstrip(chars)]: the longest prefix of [s] whose last character is not
    in [chars]. Strings are sequences of UTF-8 bytes; the byte of an ASCII
    character such as ['/'] occurs in no multi-byte sequence, so stripping
    bytes and stripping code points agree for the sets used here. *)
Fixpoint rstrip (chars s : string) : string :=
  match s with
  | EmptyString => EmptyString
  | String c rest =>
      match rstrip chars rest with
      | EmptyString => if char_in c chars then EmptyString else String c EmptyString
      | kept => String c kept
      end
  end.

(** [n] copies of the character [c]. *)
Fixpoint replicate_char (n : nat) (c : ascii) : string :=
  match n with
  | O => EmptyString
  | S n' => String c (replicate_char n' c)
  end.

(** [s.endswith(suffix)], as a proposition. *)
Definition ends_with (suffix s : string) : Prop :=
  exists front, s = front +:+ suffix.

(** ** HTTP through httpx *)

Inductive http_method := GET | POST.

(** What [client.get] and [client.post] hand to the transport. [req_json] is
    the [json=] keyword argument, absent for a request without a body. *)
Record request := Request {
  req_method : http_method;
  req_url : string;
  req_headers : gmap string string;
  req_json : option (gmap string json);
  req_timeout : Q
}.

(** An [httpx.Response]: the attributes the clients and drivers read. *)
Record response := Response {
  status_code : Z;
  text : string
}.

(** The direct subclasses of [httpx.TransportError]. *)
Inductive transport_failure :=
  | TimeoutException
  | NetworkError
  | ProtocolError
  | ProxyError
  | UnsupportedProtocol.

(** What the transport does with a request. *)
Inductive reply :=
  | Responds (r : response)
  | Fails (f : transport_failure).

Inductive client_kind := AsyncClient | Client.

(** HTTP events in the order they happen: entering and leaving the [with]
    block of an httpx client, and each request sent in between. *)
Inductive event :=
  | Opened (k : client_kind)
  | Sent (k : client_kind) (r : request)
  | Closed (k : client_kind).

(** ** Exceptions *)

(** A subscript, [v[key]] or [v[index]]. *)
Inductive subscript :=
  | Key (k : string)
  | Index (i : Z).

(** Why a [print] fails: the stream cannot encode the line
    ([UnicodeEncodeError]), or the stream itself fails ([OSError], a broken
    pipe among them). *)
Inductive print_failure :=
  | CannotEncode
  | StreamFailed.

Inductive exn :=
  | HTTPStatusError (r : response)
  | TransportError (f : transport_failure)
  | JSONDecodeError (doc : string)
  | KeyError (k : subscript)
  | IndexError
  | TypeError
  | AttributeError
  | UnicodeEncodeError
  | OSError.

(** The exception a failing [print] raises. *)
Definition print_exn (f : print_failure) : exn :=
  match f with
  | CannotEncode => UnicodeEncodeError
  | StreamFailed => OSError
  end.

Inductive result (A : Type) :=
  | Ok (a : A)
  | Raise (e : exn).
Arguments Ok {A} a.
Arguments Raise {A} e.

(** ** The world *)

(** A client object: its two attributes, each absent until it is assigned. *)
Record instance := Instance {
  base_url : option string;
  headers : option (gmap string string)
}.

(** A reference to an object: its index in the heap. *)
Definition ref := nat.
Bind Scope nat_scope with ref.

(** [stdout] holds the lines printed so far; [console] is the stream behind
    [sys.stdout]: whether it takes a line, given the lines it took before. *)
Record world := World {
  environ : gmap string string;
  stdout : list string;
  heap : list instance;
  wire : list event;
  network : list event -> request -> reply;
  console : list string -> string -> option print_failure
}.

(** ** The monad of Python computations *)

Definition M (A : Type) : Type := world -> result A * world.

#[global] Instance M_ret : MRet M := fun A a w => (Ok a, w).

#[global] Instance M_bind : MBind M := fun A B f m w =>
  match m w with
  | (Ok a, w') => f a w'
  | (Raise e, w') => (Raise e, w')
  end.

Definition raise {A} (e : exn) : M A := fun w => (Raise e, w).

(** [try: body except Exception as e: handler e]. *)
Definition try_except {A} (body : M A) (handler : exn -> M A) : M A := fun w =>
  match body w with
  | (Ok a, w') => (Ok a, w')
  | (Raise e, w') => handler e w'
  end.

(** ** Primitive computations *)

Definition set_heap (h : list instance) (w : world) : world :=
  World (environ w) (stdout w) h (wire w) (network w) (console w).

Definition set_stdout (out : list string) (w : world) : world :=
  World (environ w) out (heap w) (wire w) (network w) (console w).

Definition log_event (ev : event) (w : world) : world :=
  World (environ w) (stdout w) (heap w) (wire w ++ [ev]) (network w) (console w).

(** [object.__new__]: a fresh object with no attribute set. *)
Definition object_new : M ref := fun w =>
  (Ok (length (heap w)), set_heap (heap w ++ [Instance None None]) w).

(** [self.attr = v]. *)
Definition setattr (assign : instance -> instance) (self : ref) : M unit := fun w =>
  (Ok tt, set_heap (alter assign self (heap w)) w).

(** [self.attr]; an attribute that was never assigned raises. *)
Definition getattr {A} (attr : instance -> option A) (self : ref) : M A := fun w =>
  match heap w !! self ≫= attr with
  | Some v => (Ok v, w)
  | None => (Raise AttributeError, w)
  end.

Definition assign_base_url (v : string) (o : instance) : instance :=
  Instance (Some v) (headers o).

Definition assign_headers (v : gmap string string) (o : instance) : instance :=
  Instance (base_url o) (Some v).

(** [os.getenv(name, default)]. *)
Definition os_getenv (name fallback : string) : M string := fun w =>
  (Ok (default fallback (environ w !! name)), w).

(** [print(line)]: the line goes to the stream, which may refuse it; a
    refused line is not printed and the exception is raised. *)
Definition print (line : string) : M unit := fun w =>
  match console w (stdout w) line with
  | None => (Ok tt, set_stdout (stdout w ++ [line]) w)
  | Some f => (Raise (print_exn f), w)
  end.

(** [with httpx.Client() as client: body] and its [async with] form: the
    client is closed on every exit path, and an exception of the body
    propagates. *)
Definition with_client {A} (k : client_kind) (body : M A) : M A := fun w =>
  let (r, w') := body (log_event (Opened k) w) in
  (r, log_event (Closed k) w').

(** One exchange with the transport: the request goes on the wire, and the
    transport either answers or fails with an [httpx.TransportError]. *)
Definition send (k : client_kind) (r : request) : M response := fun w =>
  match network w (wire w) r with
  | Responds resp => (Ok resp, log_event (Sent k r) w)
  | Fails f => (Raise (TransportError f), log_event (Sent k r) w)
  end.

(** [client.post(url, headers=..., json=..., timeout=...)]. *)
Definition client_post (k : client_kind) (url : string)
    (hdrs : gmap string string) (payload : gmap string json) (timeout : Q)
    : M response :=
  send k (Request POST url hdrs (Some payload) timeout).

(** [client.get(url, headers=..., timeout=...)]. *)
Definition client_get (k : client_kind) (url : string)
    (hdrs : gmap string string) (timeout : Q) : M response :=
  send k (Request GET url hdrs None timeout).

(** [response.is_success]: the status code is 2xx. *)
Definition is_success (r : response) : bool :=
  (200 <=? status_code r) && (status_code r <=? 299).

(** [response.raise_for_status()]. *)
Definition raise_for_status (r : response) : M unit :=
  if is_success r then mret tt else raise (HTTPStatusError r).

(** The functions of the Python runtime that the clients call and whose
    result this development never looks into. *)
Class Runtime := {
  (** [json.loads(doc)], [None] when [doc] is not a JSON document *)
  json_loads : string -> option json;
  (** [json.dumps(v, indent=2)] *)
  json_dumps_indent2 : json -> string;
  (** [str(v)], as an f-string renders a value *)
  py_str : json -> string;
  (** [str(e)] for an exception [e] *)
  exn_str : exn -> string
}.

(** [response.json()]. *)
Definition response_json `{!Runtime} (r : response) : M json :=
  match json_loads (text r) with
  | Some v => mret v
  | None => raise (JSONDecodeError (text r))
  end.

(** ** Subscripts *)

(** A UTF-8 continuation byte, [10xxxxxx]. *)
Definition is_continuation (c : ascii) : bool :=
  let n := Z.of_nat (nat_of_ascii c) in (128 <=? n) && (n <? 192).

Definition starts_in_continuation (s : string) : bool :=
  match s with
  | EmptyString => false
  | String c _ => is_continuation c
  end.

(** The code points of a string, each as the string of its bytes. *)
Fixpoint codepoints (s : string) : list string :=
  match s with
  | EmptyString => []
  | String c rest =>
      match codepoints rest with
      | p :: ps =>
          if starts_in_continuation rest then String c p :: ps
          else String c EmptyString :: p :: ps
      | [] => [String c EmptyString]
      end
  end.

(** [seq[i]] for a Python sequence: a negative index counts from the end. *)
Definition sequence_item {A} (l : list A) (i : Z) : option A :=
  let n := Z.of_nat (length l) in
  let j := if i <? 0 then i + n else i in
  if (j <? 0) || (n <=? j) then None else l !! Z.to_nat j.

(** [v[k]] for a decoded JSON value [v]. *)
Definition getitem (v : json) (k : subscript) : M json :=
  match v, k with
  | JDict d, Key name =>
      match d !! name with
      | Some x => mret x
      | None => raise (KeyError k)
      end
  | JDict _, Index _ => raise (KeyError k)
  | JList l, Index i =>
      match sequence_item l i with
      | Some x => mret x
      | None => raise IndexError
      end
  | JStr s, Index i =>
      match sequence_item (codepoints s) i with
      | Some c => mret (JStr c)
      | None => raise IndexError
      end
  | JList _, Key _ | JStr _, Key _ => raise TypeError
  | _, _ => raise TypeError
  end.

(** The line feed that ["\n"] denotes. *)
Definition LF : string := String "010"%char EmptyString.

(** * examples/python_httpx_client.py *)

Module python_httpx_client.
Section Client.
  Context `{!Runtime}.

(** [BedrockOpenAIClient.__init__]. *)
Definition __init__ (self : ref) (base_url aws_bearer_token : string) : M unit :=
  setattr (assign_base_url (rstrip "/" base_url)) self;;
  setattr (assign_headers {[
    "Content-Type" := "application/json";
    "Authorization" := "Bearer " +:+ aws_bearer_token
  ]}) self.

(** The call [BedrockOpenAIClient(base_url, aws_bearer_token)]. *)
Definition BedrockOpenAIClient (base_url aws_bearer_token : string) : M ref :=
  self ← object_new;
  __init__ self base_url aws_bearer_token;;
  mret self.

(** [BedrockOpenAIClient.chat_completion]. The caller passes every
    argument: where the Python caller leaves one out, its default
    ([model="gpt-3.5-turbo"], [temperature=0.7], [max_tokens=1000],
    [stream=False]) is what is passed here. *)
Definition chat_completion (self : ref) (messages : list json)
    (model : string) (temperature : Q) (max_tokens : Z) (stream : bool)
    : M json :=
  let payload : gmap string json := {[
    "model" := JStr model;
    "messages" := JList messages;
    "temperature" := JFloat temperature;
    "max_tokens" := JInt max_tokens;
    "stream" := JBool stream
  ]} in
  with_client AsyncClient (
    base ← getattr base_url self;
    hdrs ← getattr headers self;
    response ← client_post AsyncClient (base +:+ "/v1/chat/completions")
                 hdrs payload 30;
    raise_for_status response;;
    response_json response).

(** [BedrockOpenAIClient.list_models]. *)
Definition list_models (self : ref) : M json :=
  with_client AsyncClient (
    base ← getattr base_url self;
    hdrs ← getattr headers self;
    response ← client_get AsyncClient (base +:+ "/v1/models") hdrs 10;
    raise_for_status response;;
    response_json response).

(** The driver [main] of the asynchronous example. *)
Definition main : M unit :=
  BASE_URL ← os_getenv "BEDROCK_OPENAI_BASE_URL" "https://openai.ez2.click/";
  AWS_BEARER_TOKEN ← os_getenv "AWS_BEARER_TOKEN_BEDROCK" "bedrock-api-key-YmVkcm9jay5hbWF6b25hd3MuY29tLz9BY3Rpb249Q2FsbFdpdGhCZWFyZXJUb2tlbiZYLUFte......";
  if String.eqb AWS_BEARER_TOKEN "bedrock-api-key-YmVkcm9jay5hbWF6b25hd3MuY29tLz9BY3Rpb249Q2FsbFdpdGhCZWFyZXJUb2tlbiZYLUFte......"
  then
    print "⚠️  Please set your Bedrock API Token in the AWS_BEARER_TOKEN_BEDROCK environment variable";;
    print "   Format: bedrock-api-key-<base64-encoded-data>";;
    print "   export AWS_BEARER_TOKEN_BEDROCK=bedrock-api-key-YmVkcm9jay5hbWF6b25hd3MuY29tLz9BY3Rpb249Q2FsbFdpdGhCZWFyZXJUb2tlbiZYLUFte......";;
    mret tt
  else
    client ← BedrockOpenAIClient BASE_URL AWS_BEARER_TOKEN;
    print ("🚀 Bedrock OpenAI Proxy Client Examples" +:+ LF);;
    try_except (
      print "📋 Listing available models...";;
      models ← list_models client;
      print ("Available models: " +:+ json_dumps_indent2 models +:+ LF);;
      print "💬 OpenAI-compatible chat completion...";;
      let messages := [
        JDict {[ "role" := JStr "user";
                 "content" := JStr "Hello! Can you tell me about AWS Bedrock?" ]}
      ] in
      response ← chat_completion client messages "gpt-3.5-turbo" 0.7 500 false;
      choices ← getitem response (Key "choices");
      choice ← getitem choices (Index 0);
      message ← getitem choice (Key "message");
      content ← getitem message (Key "content");
      print ("Response: " +:+ py_str content +:+ LF);;
      usage ← getitem response (Key "usage");
      print ("Usage: " +:+ py_str usage +:+ LF);;
      print "🎭 Chat with system message...";;
      let messages_with_system := [
        JDict {[ "role" := JStr "system";
                 "content" := JStr "You are a helpful AWS expert assistant." ]};
        JDict {[ "role" := JStr "user";
                 "content" := JStr "What are the benefits of using AWS Bedrock?" ]}
      ] in
      response ← chat_completion client messages_with_system "gpt-4" 0.5 300 false;
      choices ← getitem response (Key "choices");
      choice ← getitem choices (Index 0);
      message ← getitem choice (Key "message");
      content ← getitem message (Key "content");
      print ("Response: " +:+ py_str content +:+ LF);;
      print "👁️  Vision model example...";;
      let vision_messages := [
        JDict {[
          "role" := JStr "user";
          "content" := JList [
            JDict {[ "type" := JStr "text";
                     "text" := JStr "What do you see in this image?" ]};
            JDict {[
              "type" := JStr "image_url";
              "image_url" := JDict {[
                "url" := JStr "data:image/jpeg;base64,/9j/4AAQSkZJRgABAQAAAQABAAD/2wBDAAYEBQYFBAYGBQYHBwYIChAKCgkJChQODwwQFxQYGBcUFhYaHSUfGhsjHBYWICwgIyYnKSopGR8tMC0oMCUoKSj/2wBDAQcHBwoIChMKChMoGhYaKCgoKCgoKCgoKCgoKCgoKCgoKCgoKCgoKCgoKCgoKCgoKCgoKCgoKCgoKCgoKCgoKCj/wAARCAABAAEDASIAAhEBAxEB/8QAFQABAQAAAAAAAAAAAAAAAAAAAAv/xAAUEAEAAAAAAAAAAAAAAAAAAAAA/8QAFQEBAQAAAAAAAAAAAAAAAAAAAAX/xAAUEQEAAAAAAAAAAAAAAAAAAAAA/9oADAMBAAIRAxEAPwCdABmX/9k="
              ]}
            ]}
          ]
        ]}
      ] in
      try_except (
        vision_response ← chat_completion client vision_messages
                            "claude-3-sonnet" 0.5 300 false;
        choices ← getitem vision_response (Key "choices");
        choice ← getitem choices (Index 0);
        message ← getitem choice (Key "message");
        content ← getitem message (Key "content");
        print ("Vision Response: " +:+ py_str content +:+ LF)
      ) (fun e =>
        print ("Vision model not available or error: " +:+ exn_str e +:+ LF))
    ) (fun e =>
      match e with
      | HTTPStatusError r =>
          print ("❌ HTTP Error: " +:+ py_str (JInt (status_code r)));;
          print ("Response: " +:+ text r)
      | _ => print ("❌ Error: " +:+ exn_str e)
      end).

End Client.
End python_httpx_client.

(** * examples/python_sync_client.py *)

Module python_sync_client.
Section Client.
  Context `{!Runtime}.

(** [BedrockOpenAIClientSync.__init__]. *)
Definition __init__ (self : ref) (base_url api_key : string) : M unit :=
  setattr (assign_base_url (rstrip "/" base_url)) self;;
  setattr (assign_headers {[
    "Content-Type" := "application/json";
    "Authorization" := "Bearer " +:+ api_key
  ]}) self.

(** The call [BedrockOpenAIClientSync(base_url, api_key)]. *)
Definition BedrockOpenAIClientSync (base_url api_key : string) : M ref :=
  self ← object_new;
  __init__ self base_url api_key;;
  mret self.

(** [BedrockOpenAIClientSync.chat_completion]: no [stream] parameter, and
    no [stream] entry in the payload. Defaults as in the asynchronous client:
    [model="gpt-3.5-turbo"], [temperature=0.7], [max_tokens=1000]. *)
Definition chat_completion (self : ref) (messages : list json)
    (model : string) (temperature : Q) (max_tokens : Z) : M json :=
  let payload : gmap string json := {[
    "model" := JStr model;
    "messages" := JList messages;
    "temperature" := JFloat temperature;
    "max_tokens" := JInt max_tokens
  ]} in
  with_client Client (
    base ← getattr base_url self;
    hdrs ← getattr headers self;
    response ← client_post Client (base +:+ "/v1/chat/completions")
                 hdrs payload 30;
    raise_for_status response;;
    response_json response).

(** [BedrockOpenAIClientSync.list_models]. *)
Definition list_models (self : ref) : M json :=
  with_client Client (
    base ← getattr base_url self;
    hdrs ← getattr headers self;
    response ← client_get Client (base +:+ "/v1/models") hdrs 10;
    raise_for_status response;;
    response_json response).

(** The driver [main] of the synchronous example. *)
Definition main : M unit :=
  BASE_URL ← os_getenv "BEDROCK_OPENAI_BASE_URL" "https://openai.ez2.click/dev";
  AWS_BEARER_TOKEN ← os_getenv "AWS_BEARER_TOKEN_BEDROCK" "bedrock-api-key-YmVkcm9jay5hbWF6b25hd3MuY29tLz9BY3Rpb249Q2FsbFdpdGhCZWFyZXJUb2tlbiZYLUFte......";
  if String.eqb AWS_BEARER_TOKEN "bedrock-api-key-YmVkcm9jay5hbWF6b25hd3MuY29tLz9BY3Rpb249Q2FsbFdpdGhCZWFyZXJUb2tlbiZYLUFte......"
  then
    print "⚠️  Please set your Bedrock API Token in the AWS_BEARER_TOKEN_BEDROCK environment variable";;
    print "   Format: bedrock-api-key-<base64-encoded-data>";;
    print "   export AWS_BEARER_TOKEN_BEDROCK=bedrock-api-key-YmVkcm9jay5hbWF6b25hd3MuY29tLz9BY3Rpb249Q2FsbFdpdGhCZWFyZXJUb2tlbiZYLUFte......";;
    mret tt
  else
    client ← BedrockOpenAIClientSync BASE_URL AWS_BEARER_TOKEN;
    print ("🚀 Bedrock OpenAI Proxy Synchronous Client Example" +:+ LF);;
    try_except (
      print "📋 Listing available models...";;
      models ← list_models client;
      print ("Available models: " +:+ json_dumps_indent2 models +:+ LF);;
      print "💬 Simple chat completion...";;
      let messages := [
        JDict {[ "role" := JStr "user";
                 "content" := JStr "What is AWS Bedrock? Please explain in 2 sentences." ]}
      ] in
      response ← chat_completion client messages "gpt-3.5-turbo" 0.7 200;
      choices ← getitem response (Key "choices");
      choice ← getitem choices (Index 0);
      message ← getitem choice (Key "message");
      content ← getitem message (Key "content");
      print ("Response: " +:+ py_str content +:+ LF);;
      usage ← getitem response (Key "usage");
      print ("Usage: " +:+ py_str usage +:+ LF);;
      print "🗣️  Multi-turn conversation...";;
      let conversation := [
        JDict {[ "role" := JStr "system";
                 "content" := JStr "You are a helpful AWS expert." ]};
        JDict {[ "role" := JStr "user";
                 "content" := JStr "What is AWS Bedrock?" ]};
        JDict {[ "role" := JStr "assistant";
                 "content" := JStr "AWS Bedrock is a fully managed service that offers foundation models from leading AI companies through a single API." ]};
        JDict {[ "role" := JStr "user";
                 "content" := JStr "What are its main benefits?" ]}
      ] in
      response ← chat_completion client conversation "gpt-4" 0.5 300;
      choices ← getitem response (Key "choices");
      choice ← getitem choices (Index 0);
      message ← getitem choice (Key "message");
      content ← getitem message (Key "content");
      print ("Response: " +:+ py_str content +:+ LF)
    ) (fun e =>
      match e with
      | HTTPStatusError r =>
          print ("❌ HTTP Error: " +:+ py_str (JInt (status_code r)));;
          print ("Response: " +:+ text r)
      | _ => print ("❌ Error: " +:+ exn_str e)
      end).

End Client.
End python_sync_client.

(** * The vocabulary of the statements *)

(** The result of a call whose request got the answer [rp]: what
    [send], [raise_for_status] and [response.json()] make of it in turn. *)
Definition outcome `{!Runtime} (rp : reply) : result json :=
  match rp with
  | Fails f => Raise (TransportError f)
  | Responds resp =>
      if is_success resp then
        match json_loads (text resp) with
        | Some v => Ok v
        | None => Raise (JSONDecodeError (text resp))
        end
      else Raise (HTTPStatusError resp)
  end.

(** The world after one exchange: three more events on the wire. *)
Definition exchanged (k : client_kind) (r : request) (w : world) : world :=
  log_event (Closed k) (log_event (Sent k r) (log_event (Opened k) w)).

(** A live client object: both attributes assigned. *)
Definition live (self : ref) (b : string) (h : gmap string string) (w : world) : Prop :=
  heap w !! self = Some (Instance (Some b) (Some h)).

(** The request [chat_completion] of the asynchronous client sends. *)
Definition async_chat_request (b : string) (h : gmap string string)
    (messages : list json) (model : string) (temperature : Q)
    (max_tokens : Z) (stream : bool) : request :=
  Request POST (b +:+ "/v1/chat/completions") h
    (Some {[ "model" := JStr model; "messages" := JList messages;
             "temperature" := JFloat temperature;
             "max_tokens" := JInt max_tokens; "stream" := JBool stream ]})
    30.

(** The request [chat_completion] of the synchronous client sends. *)
Definition sync_chat_request (b : string) (h : gmap string string)
    (messages : list json) (model : string) (temperature : Q)
    (max_tokens : Z) : request :=
  Request POST (b +:+ "/v1/chat/completions") h
    (Some {[ "model" := JStr model; "messages" := JList messages;
             "temperature" := JFloat temperature;
             "max_tokens" := JInt max_tokens ]})
    30.

(** The request [list_models] sends, in either client. *)
Definition models_request (b : string) (h : gmap string string) : request :=
  Request GET (b +:+ "/v1/models") h None 10.

(** The headers [__init__] stores for a token. *)
Definition stored_headers (token : string) : gmap string string :=
  {[ "Content-Type" := "application/json";
     "Authorization" := "Bearer " +:+ token ]}.

(** The world in which a constructor call leaves its new object. *)
Definition constructed (base token : string) (w : world) : world :=
  set_heap (heap w ++ [Instance (Some (rstrip "/" base))
                                (Some (stored_headers token))]) w.

(** The [base_url] attribute of the object a constructor call returns. *)
Definition stored_base_url (ctor : M ref) (w : world) : option string :=
  match ctor w with
  | (Ok self, w') => heap w' !! self ≫= base_url
  | (Raise _, _) => None
  end.

(** The events a computation adds to the wire. *)
Definition traffic {A} (m : M A) (w : world) : list event :=
  drop (length (wire w)) (wire (m w).2).

(** A computation that assigns no attribute and constructs no object. *)
Definition heap_stable {A} (m : M A) : Prop :=
  forall w, heap (m w).2 = heap w.

(** A method call on a client, as a caller may issue it. *)
Inductive async_call :=
  | AsyncChat (messages : list json) (model : string) (temperature : Q)
      (max_tokens : Z) (stream : bool)
  | AsyncModels.

(** The same for the synchronous client. *)
Inductive sync_call :=
  | SyncChat (messages : list json) (model : string) (temperature : Q)
      (max_tokens : Z)
  | SyncModels.

(** Performing a call on the client [self]. *)
Definition async_perform `{!Runtime} (self : ref) (c : async_call) : M json :=
  match c with
  | AsyncChat messages model temperature max_tokens stream =>
      python_httpx_client.chat_completion self messages model temperature
        max_tokens stream
  | AsyncModels => python_httpx_client.list_models self
  end.

(** The same for the synchronous client. *)
Definition sync_perform `{!Runtime} (self : ref) (c : sync_call) : M json :=
  match c with
  | SyncChat messages model temperature max_tokens =>
      python_sync_client.chat_completion self messages model temperature
        max_tokens
  | SyncModels => python_sync_client.list_models self
  end.

(** The world after a sequence of calls, each made whatever the outcome of
    the ones before it. *)
Definition after_calls {C} (perform : C -> M json) (calls : list C)
    (w : world) : world :=
  fold_left (fun w c => (perform c w).2) calls w.

(** The three lines a driver prints when it has no token. *)
Definition token_warning : list string := [
  "⚠️  Please set your Bedrock API Token in the AWS_BEARER_TOKEN_BEDROCK environment variable";
  "   Format: bedrock-api-key-<base64-encoded-data>";
  "   export AWS_BEARER_TOKEN_BEDROCK=bedrock-api-key-YmVkcm9jay5hbWF6b25hd3MuY29tLz9BY3Rpb249Q2FsbFdpdGhCZWFyZXJUb2tlbiZYLUFte......"
].

(** A runtime for worked examples. Its decoder knows the documents the
    examples use and agrees with [json.loads] on them; the renderers are
    not looked at. *)
Definition example_runtime : Runtime := {|
  json_loads doc :=
    if String.eqb doc "{}" then Some (JDict ∅)
    else if String.eqb doc "null" then Some JNull
    else None;
  json_dumps_indent2 _ := "";
  py_str _ := "";
  exn_str _ := ""
|}.

(** A stream that takes every line. *)
Definition any_line : list string -> string -> option print_failure :=
  fun _ _ => None.

(** A world with one client object, at reference [0], in which the transport
    gives every request the answer [rp]. *)
Definition example_world (rp : reply) : world :=
  World ∅ []
    [Instance (Some "https://example.com")
              (Some (stored_headers "bedrock-api-key-abc"))]
    [] (fun _ _ => rp) any_line.

(** A one-message conversation. *)
Definition example_messages : list json :=
  [JDict {[ "role" := JStr "user"; "content" := JStr "Hello!" ]}].

(** ** Further vocabulary: sequences of calls and the drivers *)

(** The requests among a list of events, in order. *)
Definition requests (evs : list event) : list request :=
  omap (fun ev => match ev with Sent _ r => Some r | _ => None end) evs.

(** The request a call of the asynchronous client sends. *)
Definition async_request_of (b : string) (h : gmap string string)
    (c : async_call) : request :=
  match c with
  | AsyncChat messages model temperature max_tokens stream =>
      async_chat_request b h messages model temperature max_tokens stream
  | AsyncModels => models_request b h
  end.

(** The request a call of the synchronous client sends. *)
Definition sync_request_of (b : string) (h : gmap string string)
    (c : sync_call) : request :=
  match c with
  | SyncChat messages model temperature max_tokens =>
      sync_chat_request b h messages model temperature max_tokens
  | SyncModels => models_request b h
  end.

(** The placeholder both drivers take for a missing token. *)
Definition placeholder_token : string :=
  "bedrock-api-key-YmVkcm9jay5hbWF6b25hd3MuY29tLz9BY3Rpb249Q2FsbFdpdGhCZWFyZXJUb2tlbiZYLUFte......".

(** The base URL the asynchronous driver reads from the environment. *)
Definition async_env_base_url (w : world) : string :=
  default "https://openai.ez2.click/" (environ w !! "BEDROCK_OPENAI_BASE_URL").

(** The base URL the synchronous driver reads from the environment. *)
Definition sync_env_base_url (w : world) : string :=
  default "https://openai.ez2.click/dev" (environ w !! "BEDROCK_OPENAI_BASE_URL").

(** A world whose environment holds a token and, possibly, a base URL. *)
Definition example_env_world (token : string) (base : option string)
    (rp : reply) : world :=
  World (<["AWS_BEARER_TOKEN_BEDROCK" := token]>
           (match base with
            | Some b => {[ "BEDROCK_OPENAI_BASE_URL" := b ]}
            | None => ∅
            end))
    [] [] [] (fun _ _ => rp) any_line.

(** An event of a client of kind [k] configured with the base URL [b] and
    the headers [h]: entering or leaving the [with] block of such a client,
    or a request with those headers to one of the two endpoints under that
    base URL, a GET without body to [/v1/models] or a POST with a body to
    [/v1/chat/completions]. *)
Definition endpoint_event (k : client_kind) (b : string)
    (h : gmap string string) (ev : event) : Prop :=
  match ev with
  | Opened k' | Closed k' => k' = k
  | Sent k' r =>
      k' = k /\ req_headers r = h
      /\ ((req_method r = GET /\ req_url r = b +:+ "/v1/models"
           /\ req_json r = None)
          \/ (req_method r = POST /\ req_url r = b +:+ "/v1/chat/completions"
              /\ is_Some (req_json r)))
  end.

(** A computation that, run on the live client [self], keeps it live and
    only adds events of that client to the wire, at most [n] requests among
    them. *)
Definition track {A} (self : ref) (b : string) (h : gmap string string)
    (k : client_kind) (n : nat) (m : M A) : Prop :=
  forall w, live self b h w ->
    live self b h (m w).2
    /\ exists evs, wire (m w).2 = wire w ++ evs
       /\ Forall (endpoint_event k b h) evs
       /\ (length (requests evs) <= n)%nat.

(** The transport answers the request [r], sent after the events [history],
    with a 2xx response whose body is the JSON document [v]. *)
Definition answers `{!Runtime} (w : world) (history : list event)
    (r : request) (v : json) : Prop :=
  exists resp,
    network w history r = Responds resp
    /\ 200 <= status_code resp <= 299
    /\ json_loads (text resp) = Some v.

(** A chat completion in the shape the drivers read:
    [v["choices"][0]["message"]["content"]] is [content]. *)
Definition has_content (v content : json) : Prop :=
  exists d dc dm others,
    v = JDict d
    /\ d !! "choices" = Some (JList (JDict dc :: others))
    /\ dc !! "message" = Some (JDict dm)
    /\ dm !! "content" = Some content.

(** [v["usage"]] is [usage]. *)
Definition has_usage (v usage : json) : Prop :=
  exists d, v = JDict d /\ d !! "usage" = Some usage.

(** The conversations of the synchronous driver. *)
Definition sync_main_messages : list json := [
  JDict {[ "role" := JStr "user";
           "content" := JStr "What is AWS Bedrock? Please explain in 2 sentences." ]}
].

Definition sync_main_conversation : list json := [
  JDict {[ "role" := JStr "system";
           "content" := JStr "You are a helpful AWS expert." ]};
  JDict {[ "role" := JStr "user";
           "content" := JStr "What is AWS Bedrock?" ]};
  JDict {[ "role" := JStr "assistant";
           "content" := JStr "AWS Bedrock is a fully managed service that offers foundation models from leading AI companies through a single API." ]};
  JDict {[ "role" := JStr "user";
           "content" := JStr "What are its main benefits?" ]}
].

(** One exchange, as events. *)
Definition exchange (k : client_kind) (r : request) : list event :=
  [Opened k; Sent k r; Closed k].

(** A chat completion with the content ["Hi"] and the usage [7]. *)
Definition completion_value : json :=
  JDict {[
    "choices" := JList [JDict {[
      "message" := JDict {[ "role" := JStr "assistant";
                            "content" := JStr "Hi" ]} ]}];
    "usage" := JInt 7 ]}.

(** A runtime whose decoder knows one document, ["{completion}"], which it
    decodes to [completion_value]. *)
Definition completion_runtime : Runtime := {|
  json_loads doc :=
    if String.eqb doc "{completion}" then Some completion_value else None;
  json_dumps_indent2 _ := "(json)";
  py_str v := match v with JStr s => s | _ => "(value)" end;
  exn_str _ := "(exception)"
|}.

(** The exceptions a subscript raises. *)
Definition subscript_error (e : exn) : Prop :=
  match e with
  | KeyError _ | IndexError | TypeError => True
  | _ => False
  end.

(** The conversations of the asynchronous driver. *)
Definition async_main_messages : list json := [
  JDict {[ "role" := JStr "user";
           "content" := JStr "Hello! Can you tell me about AWS Bedrock?" ]}
].

Definition async_main_messages_with_system : list json := [
  JDict {[ "role" := JStr "system";
           "content" := JStr "You are a helpful AWS expert assistant." ]};
  JDict {[ "role" := JStr "user";
           "content" := JStr "What are the benefits of using AWS Bedrock?" ]}
].

Definition async_main_vision_messages : list json := [
  JDict {[
    "role" := JStr "user";
    "content" := JList [
      JDict {[ "type" := JStr "text";
               "text" := JStr "What do you see in this image?" ]};
      JDict {[
        "type" := JStr "image_url";
        "image_url" := JDict {[
          "url" := JStr "data:image/jpeg;base64,/9j/4AAQSkZJRgABAQAAAQABAAD/2wBDAAYEBQYFBAYGBQYHBwYIChAKCgkJChQODwwQFxQYGBcUFhYaHSUfGhsjHBYWICwgIyYnKSopGR8tMC0oMCUoKSj/2wBDAQcHBwoIChMKChMoGhYaKCgoKCgoKCgoKCgoKCgoKCgoKCgoKCgoKCgoKCgoKCgoKCgoKCgoKCgoKCgoKCgoKCj/wAARCAABAAEDASIAAhEBAxEB/8QAFQABAQAAAAAAAAAAAAAAAAAAAAv/xAAUEAEAAAAAAAAAAAAAAAAAAAAA/8QAFQEBAQAAAAAAAAAAAAAAAAAAAAX/xAAUEQEAAAAAAAAAAAAAAAAAAAAA/9oADAMBAAIRAxEAPwCdABmX/9k="
        ]}
      ]}
    ]
  ]}
].

(** ** Further vocabulary: the stream behind [print] *)

(** The stream takes the lines [lines], one after the other, once it has
    taken the lines [history]. *)
Fixpoint accepted (c : list string -> string -> option print_failure)
    (history lines : list string) : Prop :=
  match lines with
  | [] => True
  | line :: rest =>
      c history line = None /\ accepted c (history ++ [line]) rest
  end.

(** A world whose stream refuses no line. *)
Definition quiet (w : world) : Prop :=
  forall history line, console w history line = None.

(** Every byte of the string is an ASCII character. *)
Fixpoint is_ascii (s : string) : bool :=
  match s with
  | EmptyString => true
  | String c rest => (nat_of_ascii c <? 128)%nat && is_ascii rest
  end.

(** A stream with the ASCII encoding, as under the C locale: it takes the
    ASCII lines and no other. *)
Definition ascii_only : list string -> string -> option print_failure :=
  fun _ line => if is_ascii line then None else Some CannotEncode.

(** A world with an empty environment whose stream is ASCII only. *)
Definition ascii_world : world :=
  World ∅ [] [] [] (fun _ _ => Fails NetworkError) ascii_only.

(** A world with a token in the environment whose stream is ASCII only. *)
Definition ascii_env_world (token : string) : world :=
  World {[ "AWS_BEARER_TOKEN_BEDROCK" := token ]} [] [] []
    (fun _ _ => Fails NetworkError) ascii_only.

(** The [print] calls of a sequence of lines, one after the other; the first
    one that fails ends the sequence. *)
Definition print_lines (lines : list string) : M unit :=
  foldr (fun line rest => print line;; rest) (mret tt) lines.

(** A computation from which nothing escapes but what a failing [print]
    raises. *)
Definition print_failures_only {A} (m : M A) : Prop :=
  forall w e, (m w).1 = Raise e -> exists f, e = print_exn f.

(** A computation that leaves the stream as it is. *)
Definition console_stable {A} (m : M A) : Prop :=
  forall w, console (m w).2 = console w.

(** A computation that ends normally in every world whose stream refuses
    no line. *)
Definition calm {A} (m : M A) : Prop :=
  forall w, quiet w -> exists a, (m w).1 = Ok a.

(** * Properties *)

(** ** The monad, step by step *)

Lemma bind_ok {A B} (m : M A) (f : A -> M B) w a w' :
  m w = (Ok a, w') -> (m ≫= f) w = f a w'.
Proof. intros E. unfold mbind, M_bind. by rewrite E. Qed.

Lemma bind_raise {A B} (m : M A) (f : A -> M B) w e w' :
  m w = (Raise e, w') -> (m ≫= f) w = (Raise e, w').
Proof. intros E. unfold mbind, M_bind. by rewrite E. Qed.

(** ** One exchange *)

(** One request inside one [with] block, on a live client object: the shape
    both methods of both clients share. *)
Lemma exchange_run `{!Runtime} k (mk : string -> gmap string string -> request)
    self b h w :
  heap w !! self = Some (Instance (Some b) (Some h)) ->
  with_client k (
    base ← getattr base_url self;
    hdrs ← getattr headers self;
    response ← send k (mk base hdrs);
    raise_for_status response;;
    response_json response) w
  = (outcome (network w (wire w ++ [Opened k]) (mk b h)),
     log_event (Closed k) (log_event (Sent k (mk b h)) (log_event (Opened k) w))).
Proof.
  intros Hself. unfold with_client.
  set (w1 := log_event (Opened k) w).
  assert (Hb : getattr base_url self w1 = (Ok b, w1))
    by (unfold getattr; cbn; by rewrite Hself).
  assert (Hh : getattr headers self w1 = (Ok h, w1))
    by (unfold getattr; cbn; by rewrite Hself).
  rewrite (bind_ok _ _ _ _ _ Hb), (bind_ok _ _ _ _ _ Hh).
  unfold mbind at 1, M_bind at 1, send. cbn [network wire w1 log_event].
  destruct (network w (wire w ++ [Opened k]) (mk b h)) as [resp|f]; cbn; [|done].
  unfold mbind, M_bind, raise_for_status, response_json.
  destruct (is_success resp); cbn; [|done].
  by destruct (json_loads (text resp)).
Qed.

Lemma wire_exchanged k r w :
  wire (exchanged k r w) = wire w ++ [Opened k; Sent k r; Closed k].
Proof. cbn. by rewrite <- !app_assoc. Qed.

Lemma heap_exchanged k r w : heap (exchanged k r w) = heap w.
Proof. done. Qed.

(** ** The four methods, run *)

Section Runs.
  Context `{!Runtime}.

Lemma async_chat_run self b h w messages model temperature max_tokens stream :
  live self b h w ->
  let r := async_chat_request b h messages model temperature max_tokens stream in
  python_httpx_client.chat_completion self messages model temperature
    max_tokens stream w
  = (outcome (network w (wire w ++ [Opened AsyncClient]) r),
     exchanged AsyncClient r w).
Proof.
  intros Hself r. unfold python_httpx_client.chat_completion, client_post.
  exact (exchange_run AsyncClient
    (fun base hdrs => Request POST (base +:+ "/v1/chat/completions") hdrs _ 30)
    self b h w Hself).
Qed.

Lemma sync_chat_run self b h w messages model temperature max_tokens :
  live self b h w ->
  let r := sync_chat_request b h messages model temperature max_tokens in
  python_sync_client.chat_completion self messages model temperature
    max_tokens w
  = (outcome (network w (wire w ++ [Opened Client]) r), exchanged Client r w).
Proof.
  intros Hself r. unfold python_sync_client.chat_completion, client_post.
  exact (exchange_run Client
    (fun base hdrs => Request POST (base +:+ "/v1/chat/completions") hdrs _ 30)
    self b h w Hself).
Qed.

Lemma async_models_run self b h w :
  live self b h w ->
  python_httpx_client.list_models self w
  = (outcome (network w (wire w ++ [Opened AsyncClient]) (models_request b h)),
     exchanged AsyncClient (models_request b h) w).
Proof.
  intros Hself. unfold python_httpx_client.list_models, client_get.
  exact (exchange_run AsyncClient
    (fun base hdrs => Request GET (base +:+ "/v1/models") hdrs None 10)
    self b h w Hself).
Qed.

Lemma sync_models_run self b h w :
  live self b h w ->
  python_sync_client.list_models self w
  = (outcome (network w (wire w ++ [Opened Client]) (models_request b h)),
     exchanged Client (models_request b h) w).
Proof.
  intros Hself. unfold python_sync_client.list_models, client_get.
  exact (exchange_run Client
    (fun base hdrs => Request GET (base +:+ "/v1/models") hdrs None 10)
    self b h w Hself).
Qed.

(** ** Construction *)

Lemma alter_fresh (f : instance -> instance) (l : list instance) o :
  alter f (length l) (l ++ [o]) = l ++ [f o].
Proof.
  replace (length l) with (length l + 0)%nat by lia.
  by rewrite alter_app_r.
Qed.

Lemma async_new_run base token w :
  python_httpx_client.BedrockOpenAIClient base token w
  = (Ok (length (heap w)),
     set_heap (heap w ++ [Instance (Some (rstrip "/" base))
                                   (Some (stored_headers token))]) w).
Proof.
  unfold python_httpx_client.BedrockOpenAIClient,
    python_httpx_client.__init__, object_new, setattr, mbind, M_bind, mret,
    M_ret, set_heap.
  cbn. by rewrite !alter_fresh.
Qed.

Lemma sync_new_run base token w :
  python_sync_client.BedrockOpenAIClientSync base token w
  = (Ok (length (heap w)),
     set_heap (heap w ++ [Instance (Some (rstrip "/" base))
                                   (Some (stored_headers token))]) w).
Proof.
  unfold python_sync_client.BedrockOpenAIClientSync,
    python_sync_client.__init__, object_new, setattr, mbind, M_bind, mret,
    M_ret, set_heap.
  cbn. by rewrite !alter_fresh.
Qed.

Lemma live_fresh b h w :
  live (length (heap w)) b h (set_heap (heap w ++ [Instance (Some b) (Some h)]) w).
Proof. unfold live. cbn. by rewrite list_lookup_middle. Qed.

End Runs.

(** ** Strings *)

Lemma app_cons (c : ascii) (s t : string) : String c s +:+ t = String c (s +:+ t).
Proof. reflexivity. Qed.

Lemma app_empty_r (s : string) : s +:+ "" = s.
Proof. induction s as [|c s IH]; [done|]. by rewrite app_cons, IH. Qed.

Lemma app_app (s t u : string) : (s +:+ t) +:+ u = s +:+ (t +:+ u).
Proof. induction s as [|c s IH]; [done|]. by rewrite !app_cons, IH. Qed.

Lemma length_app (s t : string) :
  String.length (s +:+ t) = (String.length s + String.length t)%nat.
Proof. induction s as [|c s IH]; [done|]. rewrite app_cons. cbn. by rewrite IH. Qed.

(** Appending the same suffix is injective. *)
Lemma app_cancel_r (s1 s2 t : string) : s1 +:+ t = s2 +:+ t -> s1 = s2.
Proof.
  revert s2. induction s1 as [|c s1 IH]; intros [|c2 s2] E; [done| | |].
  - apply (f_equal String.length) in E.
    rewrite !length_app in E. cbn in E. lia.
  - apply (f_equal String.length) in E.
    rewrite !length_app in E. cbn in E. lia.
  - rewrite !app_cons in E. injection E as -> E. f_equal. by apply IH.
Qed.

(** ** [rstrip], characterised *)

(** What [rstrip] returns ends in no character of the set. *)
Lemma rstrip_last (chars s front : string) (c : ascii) :
  rstrip chars s = front +:+ String c "" -> char_in c chars = false.
Proof.
  revert front. induction s as [|a s IH]; intros front E; cbn in E.
  - destruct front; discriminate.
  - destruct (rstrip chars s) as [|k kept] eqn:Hk.
    + destruct (char_in a chars) eqn:Ha.
      * destruct front; discriminate.
      * destruct front as [|f front].
        -- change ("" +:+ String c "") with (String c "") in E. congruence.
        -- rewrite app_cons in E. injection E as _ E. destruct front; discriminate.
    + destruct front as [|f front].
      * change ("" +:+ String c "") with (String c "") in E. discriminate.
      * rewrite app_cons in E. injection E as _ E. by apply (IH front).
Qed.

(** What [rstrip] removes is a run of characters of the set. *)
Lemma rstrip_slashes (s : string) :
  exists n, s = rstrip "/" s +:+ replicate_char n "/".
Proof.
  induction s as [|a s [n IH]]; [by exists 0%nat|]. cbn [rstrip].
  destruct (rstrip "/" s) as [|k kept] eqn:Hk.
  - change ("" +:+ replicate_char n "/") with (replicate_char n "/") in IH.
    destruct (char_in a "/") eqn:Ha.
    + exists (S n). cbn in Ha. destruct (Ascii.eqb_spec a "/") as [->|]; [|done].
      cbn. by rewrite <- IH.
    + exists n. rewrite app_cons.
      change ("" +:+ replicate_char n "/") with (replicate_char n "/").
      by rewrite <- IH.
  - exists n. rewrite app_cons. by rewrite <- IH.
Qed.

Lemma rstrip_no_trailing_slash (s : string) : ~ ends_with "/" (rstrip "/" s).
Proof. intros [front E]. by apply rstrip_last in E. Qed.

(** A URL built from a stripped base has a single slash at the joint. *)
Lemma joint_single_slash (s path : string) :
  ~ ends_with ("/" +:+ String "/" path) (rstrip "/" s +:+ String "/" path).
Proof.
  intros [front E].
  change ("/" +:+ String "/" path) with ("/" +:+ (String "/" path)) in E.
  rewrite <- app_app in E. apply app_cancel_r in E.
  by apply (rstrip_no_trailing_slash s); exists front.
Qed.

(** ** A freshly constructed client *)

Lemma traffic_exchanged {A} (m : M A) w (res : result A) k r w0 :
  wire w0 = wire w ->
  m w = (res, exchanged k r w0) ->
  traffic m w = [Opened k; Sent k r; Closed k].
Proof.
  intros Hw E. unfold traffic. rewrite E. cbn [snd].
  rewrite wire_exchanged, Hw. by rewrite drop_app_length.
Qed.

Section Fresh.
  Context `{!Runtime}.

Lemma constructed_live base token w :
  live (length (heap w)) (rstrip "/" base) (stored_headers token)
    (constructed base token w).
Proof. apply live_fresh. Qed.

Lemma async_stored_base base token w :
  stored_base_url (python_httpx_client.BedrockOpenAIClient base token) w
  = Some (rstrip "/" base).
Proof.
  unfold stored_base_url. rewrite async_new_run.
  by rewrite (live_fresh (rstrip "/" base) (stored_headers token) w).
Qed.

Lemma sync_stored_base base token w :
  stored_base_url (python_sync_client.BedrockOpenAIClientSync base token) w
  = Some (rstrip "/" base).
Proof.
  unfold stored_base_url. rewrite sync_new_run.
  by rewrite (live_fresh (rstrip "/" base) (stored_headers token) w).
Qed.

Lemma async_new_models_traffic base token w :
  traffic (self ← python_httpx_client.BedrockOpenAIClient base token;
           python_httpx_client.list_models self) w
  = [Opened AsyncClient;
     Sent AsyncClient (models_request (rstrip "/" base) (stored_headers token));
     Closed AsyncClient].
Proof.
  eapply (traffic_exchanged _ w _ _ _ (constructed base token w)); [done|].
  rewrite (bind_ok _ _ _ _ _ (async_new_run base token w)).
  apply async_models_run, constructed_live.
Qed.

Lemma sync_new_models_traffic base token w :
  traffic (self ← python_sync_client.BedrockOpenAIClientSync base token;
           python_sync_client.list_models self) w
  = [Opened Client;
     Sent Client (models_request (rstrip "/" base) (stored_headers token));
     Closed Client].
Proof.
  eapply (traffic_exchanged _ w _ _ _ (constructed base token w)); [done|].
  rewrite (bind_ok _ _ _ _ _ (sync_new_run base token w)).
  apply sync_models_run, constructed_live.
Qed.

End Fresh.

(** ** Base-URL normalisation *)

Example rstrip_example : rstrip "/" "https://example.com/" = "https://example.com".
Proof. reflexivity. Qed.

Example rstrip_inner_kept : rstrip "/" "a//b/" = "a//b".
Proof. reflexivity. Qed.

(** C3. For every [base_url] given to either constructor the stored base URL
    does not end in a slash, and the URL [list_models] then requests joins it
    to [/v1/models] with a single slash; for ["https://example.com/"] the
    stored value is ["https://example.com"] and the URL requested is
    ["https://example.com/v1/models"]. *)
Theorem base_url_trailing_slash_stripped `{!Runtime} :
  (forall base token w,
     exists stored r,
       stored_base_url (python_httpx_client.BedrockOpenAIClient base token) w
         = Some stored
       /\ ~ ends_with "/" stored
       /\ traffic (self ← python_httpx_client.BedrockOpenAIClient base token;
                   python_httpx_client.list_models self) w
          = [Opened AsyncClient; Sent AsyncClient r; Closed AsyncClient]
       /\ req_url r = stored +:+ "/v1/models"
       /\ ~ ends_with "//v1/models" (req_url r))
  /\ (forall base token w,
     exists stored r,
       stored_base_url (python_sync_client.BedrockOpenAIClientSync base token) w
         = Some stored
       /\ ~ ends_with "/" stored
       /\ traffic (self ← python_sync_client.BedrockOpenAIClientSync base token;
                   python_sync_client.list_models self) w
          = [Opened Client; Sent Client r; Closed Client]
       /\ req_url r = stored +:+ "/v1/models"
       /\ ~ ends_with "//v1/models" (req_url r))
  /\ (forall token w,
     exists r,
       stored_base_url
         (python_httpx_client.BedrockOpenAIClient "https://example.com/" token) w
         = Some "https://example.com"
       /\ traffic (self ← python_httpx_client.BedrockOpenAIClient
                            "https://example.com/" token;
                   python_httpx_client.list_models self) w
          = [Opened AsyncClient; Sent AsyncClient r; Closed AsyncClient]
       /\ req_url r = "https://example.com/v1/models")
  /\ (forall token w,
     exists r,
       stored_base_url
         (python_sync_client.BedrockOpenAIClientSync "https://example.com/" token) w
         = Some "https://example.com"
       /\ traffic (self ← python_sync_client.BedrockOpenAIClientSync
                            "https://example.com/" token;
                   python_sync_client.list_models self) w
          = [Opened Client; Sent Client r; Closed Client]
       /\ req_url r = "https://example.com/v1/models").
Proof.
  repeat split.
  - intros base token w. eexists _, _.
    split; [apply async_stored_base|].
    split; [apply rstrip_no_trailing_slash|].
    split; [apply async_new_models_traffic|].
    split; [done|]. apply (joint_single_slash base "v1/models").
  - intros base token w. eexists _, _.
    split; [apply sync_stored_base|].
    split; [apply rstrip_no_trailing_slash|].
    split; [apply sync_new_models_traffic|].
    split; [done|]. apply (joint_single_slash base "v1/models").
  - intros token w. eexists.
    split; [apply async_stored_base|].
    split; [apply async_new_models_traffic|]. reflexivity.
  - intros token w. eexists.
    split; [apply sync_stored_base|].
    split; [apply sync_new_models_traffic|]. reflexivity.
Qed.

(** C10. The stored base URL is the given one with all its trailing slashes
    removed: the given string is the stored one followed by a run of slashes,
    and the stored one does not end in a slash. So
    ["https://example.com//"] is stored as ["https://example.com"], and a
    string of slashes only as the empty string, which makes [list_models]
    request ["/v1/models"]. *)
Theorem base_url_all_trailing_slashes_stripped `{!Runtime} :
  (forall base token w,
     exists stored n,
       stored_base_url (python_httpx_client.BedrockOpenAIClient base token) w
         = Some stored
       /\ base = stored +:+ replicate_char n "/"
       /\ ~ ends_with "/" stored)
  /\ (forall base token w,
     exists stored n,
       stored_base_url (python_sync_client.BedrockOpenAIClientSync base token) w
         = Some stored
       /\ base = stored +:+ replicate_char n "/"
       /\ ~ ends_with "/" stored)
  /\ (forall token w,
     stored_base_url
       (python_httpx_client.BedrockOpenAIClient "https://example.com//" token) w
       = Some "https://example.com"
     /\ stored_base_url
       (python_sync_client.BedrockOpenAIClientSync "https://example.com//" token) w
       = Some "https://example.com")
  /\ (forall n token w,
     stored_base_url
       (python_httpx_client.BedrockOpenAIClient (replicate_char n "/") token) w
       = Some ""
     /\ stored_base_url
       (python_sync_client.BedrockOpenAIClientSync (replicate_char n "/") token) w
       = Some "")
  /\ (forall token w,
     exists r r',
       traffic (self ← python_httpx_client.BedrockOpenAIClient "///" token;
                python_httpx_client.list_models self) w
         = [Opened AsyncClient; Sent AsyncClient r; Closed AsyncClient]
       /\ req_url r = "/v1/models"
       /\ traffic (self ← python_sync_client.BedrockOpenAIClientSync "///" token;
                   python_sync_client.list_models self) w
         = [Opened Client; Sent Client r'; Closed Client]
       /\ req_url r' = "/v1/models").
Proof.
  assert (Hrun : forall n, rstrip "/" (replicate_char n "/") = "").
  { induction n as [|n IH]; [done|]. cbn [replicate_char rstrip]. by rewrite IH. }
  split; [|split; [|split; [|split]]].
  - intros base token w. destruct (rstrip_slashes base) as [n Hn].
    exists (rstrip "/" base), n.
    split; [apply async_stored_base|].
    split; [done|]. apply rstrip_no_trailing_slash.
  - intros base token w. destruct (rstrip_slashes base) as [n Hn].
    exists (rstrip "/" base), n.
    split; [apply sync_stored_base|].
    split; [done|]. apply rstrip_no_trailing_slash.
  - intros token w. by rewrite async_stored_base, sync_stored_base.
  - intros n token w. by rewrite async_stored_base, sync_stored_base, Hrun.
  - intros token w. eexists _, _.
    split; [apply async_new_models_traffic|]. split; [reflexivity|].
    split; [apply sync_new_models_traffic|]. reflexivity.
Qed.

(** ** The example world *)

Lemma example_live rp :
  live 0 "https://example.com" (stored_headers "bedrock-api-key-abc")
    (example_world rp).
Proof. reflexivity. Qed.

(** ** The request of [chat_completion] *)

Section ChatRequest.
  Context `{!Runtime}.

Lemma async_chat_traffic self b h w messages model temperature max_tokens stream :
  live self b h w ->
  traffic (python_httpx_client.chat_completion self messages model
             temperature max_tokens stream) w
  = [Opened AsyncClient;
     Sent AsyncClient
       (async_chat_request b h messages model temperature max_tokens stream);
     Closed AsyncClient].
Proof.
  intros Hself. eapply (traffic_exchanged _ w _ _ _ w); [done|].
  by apply async_chat_run.
Qed.

Lemma sync_chat_traffic self b h w messages model temperature max_tokens :
  live self b h w ->
  traffic (python_sync_client.chat_completion self messages model
             temperature max_tokens) w
  = [Opened Client;
     Sent Client (sync_chat_request b h messages model temperature max_tokens);
     Closed Client].
Proof.
  intros Hself. eapply (traffic_exchanged _ w _ _ _ w); [done|].
  by apply sync_chat_run.
Qed.

Lemma async_models_traffic self b h w :
  live self b h w ->
  traffic (python_httpx_client.list_models self) w
  = [Opened AsyncClient; Sent AsyncClient (models_request b h);
     Closed AsyncClient].
Proof.
  intros Hself. eapply (traffic_exchanged _ w _ _ _ w); [done|].
  by apply async_models_run.
Qed.

Lemma sync_models_traffic self b h w :
  live self b h w ->
  traffic (python_sync_client.list_models self) w
  = [Opened Client; Sent Client (models_request b h); Closed Client].
Proof.
  intros Hself. eapply (traffic_exchanged _ w _ _ _ w); [done|].
  by apply sync_models_run.
Qed.

(** After an exchange the wire is the old wire followed by the traffic. *)
Lemma wire_after_exchange {A} (m : M A) w (res : result A) k r :
  m w = (res, exchanged k r w) ->
  wire (m w).2 = wire w ++ traffic m w.
Proof.
  intros E. rewrite (traffic_exchanged m w res k r w eq_refl E).
  rewrite E. apply wire_exchanged.
Qed.

Lemma five_fields (v1 v2 v3 v4 v5 : json) :
  dom ({[ "model" := v1; "messages" := v2; "temperature" := v3;
          "max_tokens" := v4; "stream" := v5 ]} : gmap string json)
  = ({[ "model"; "messages"; "temperature"; "max_tokens"; "stream" ]}
       : gset string).
Proof. rewrite !dom_insert_L, dom_singleton_L. set_solver. Qed.

Lemma four_fields (v1 v2 v3 v4 : json) :
  dom ({[ "model" := v1; "messages" := v2; "temperature" := v3;
          "max_tokens" := v4 ]} : gmap string json)
  = ({[ "model"; "messages"; "temperature"; "max_tokens" ]} : gset string).
Proof. rewrite !dom_insert_L, dom_singleton_L. set_solver. Qed.

End ChatRequest.

(** C1, as stated, fails for the synchronous client: the body it posts for a
    one-message conversation has no [stream] field. *)
Lemma sync_chat_completion_posts_no_stream :
  ~ (exists r body,
       traffic (@python_sync_client.chat_completion example_runtime 0
                  example_messages "gpt-3.5-turbo" 0.7 200)
               (example_world (Responds (Response 200 "{}")))
         = [Opened Client; Sent Client r; Closed Client]
       /\ req_json r = Some body
       /\ is_Some (body !! "stream")).
Proof.
  intros (r & body & Ht & Hb & Hs).
  rewrite (@sync_chat_traffic example_runtime 0 _ _ _ example_messages
             "gpt-3.5-turbo" 0.7 200
             (example_live (Responds (Response 200 "{}")))) in Ht.
  injection Ht as <-. cbn in Hb. injection Hb as <-.
  destruct Hs as [v Hv]. vm_compute in Hv. discriminate.
Qed.

(** C1, amended. For every non-empty message sequence and every model,
    temperature, max_tokens and stream, [chat_completion] on a live client
    sends exactly one request, a POST; the JSON body of the asynchronous
    client has exactly the five fields [model], [messages], [temperature],
    [max_tokens] and [stream], that of the synchronous client exactly the
    four fields [model], [messages], [temperature] and [max_tokens]. (The
    code does not inspect the messages: the same holds for the empty list.) *)
Theorem chat_completion_posts_once `{!Runtime}
    self b h w (messages : list json) model temperature max_tokens stream :
  messages <> [] ->
  live self b h w ->
  (exists r body,
     traffic (python_httpx_client.chat_completion self messages model
                temperature max_tokens stream) w
       = [Opened AsyncClient; Sent AsyncClient r; Closed AsyncClient]
     /\ req_method r = POST
     /\ req_json r = Some body
     /\ dom body = {[ "model"; "messages"; "temperature"; "max_tokens"; "stream" ]})
  /\ (exists r body,
     traffic (python_sync_client.chat_completion self messages model
                temperature max_tokens) w
       = [Opened Client; Sent Client r; Closed Client]
     /\ req_method r = POST
     /\ req_json r = Some body
     /\ dom body = {[ "model"; "messages"; "temperature"; "max_tokens" ]}).
Proof.
  intros _ Hself. split.
  - eexists _, _. split; [by apply async_chat_traffic|].
    split; [done|]. split; [done|]. apply five_fields.
  - eexists _, _. split; [by apply sync_chat_traffic|].
    split; [done|]. split; [done|]. apply four_fields.
Qed.

Lemma chat_completion_posts_once_witness :
  example_messages <> []
  /\ live 0 "https://example.com" (stored_headers "bedrock-api-key-abc")
       (example_world (Responds (Response 200 "{}")))
  /\ (exists r body,
     traffic (@python_sync_client.chat_completion example_runtime 0
                example_messages "gpt-3.5-turbo" 0.7 200)
             (example_world (Responds (Response 200 "{}")))
       = [Opened Client; Sent Client r; Closed Client]
     /\ req_method r = POST
     /\ req_json r = Some body
     /\ dom body = {[ "model"; "messages"; "temperature"; "max_tokens" ]}).
Proof.
  split; [discriminate|]. split; [apply example_live|].
  apply (@chat_completion_posts_once example_runtime 0 "https://example.com"
           (stored_headers "bedrock-api-key-abc")
           (example_world (Responds (Response 200 "{}"))) example_messages
           "gpt-3.5-turbo" 0.7 200 false);
    [discriminate | apply example_live].
Defined.

(** ** The two execution modes, compared *)

(** C2, as stated, fails: for the same messages, model, temperature and
    max_tokens (and [stream] left at its default [False]) the two clients
    post different JSON payloads. *)
Lemma sync_and_async_payloads_differ :
  ~ (exists ra rs,
       traffic (@python_httpx_client.chat_completion example_runtime 0
                  example_messages "gpt-4" 0.5 300 false)
               (example_world (Responds (Response 200 "{}")))
         = [Opened AsyncClient; Sent AsyncClient ra; Closed AsyncClient]
       /\ traffic (@python_sync_client.chat_completion example_runtime 0
                     example_messages "gpt-4" 0.5 300)
                  (example_world (Responds (Response 200 "{}")))
         = [Opened Client; Sent Client rs; Closed Client]
       /\ req_json ra = req_json rs).
Proof.
  intros (ra & rs & Ha & Hs & E).
  rewrite (@async_chat_traffic example_runtime 0 _ _ _ example_messages
             "gpt-4" 0.5 300 false
             (example_live (Responds (Response 200 "{}")))) in Ha.
  rewrite (@sync_chat_traffic example_runtime 0 _ _ _ example_messages
             "gpt-4" 0.5 300
             (example_live (Responds (Response 200 "{}")))) in Hs.
  injection Ha as <-. injection Hs as <-.
  apply (f_equal (fun body : option (gmap string json) =>
                    body ≫= fun fields => fields !! "stream")) in E.
  vm_compute in E. discriminate.
Qed.

(** C2, amended. On the same live client and for the same messages, model,
    temperature and max_tokens, the two clients each send one request, with
    the same method, URL, headers and timeout; the payload of the
    synchronous client is that of the asynchronous client without its
    [stream] field; and when the transport gives both requests the same
    answer, both calls end in the same result or the same exception. *)
Theorem sync_matches_async_up_to_stream `{!Runtime}
    self b h w messages model temperature max_tokens stream :
  live self b h w ->
  exists ra rs pa ps,
    traffic (python_httpx_client.chat_completion self messages model
               temperature max_tokens stream) w
      = [Opened AsyncClient; Sent AsyncClient ra; Closed AsyncClient]
    /\ traffic (python_sync_client.chat_completion self messages model
                  temperature max_tokens) w
      = [Opened Client; Sent Client rs; Closed Client]
    /\ req_method ra = req_method rs
    /\ req_url ra = req_url rs
    /\ req_headers ra = req_headers rs
    /\ req_timeout ra = req_timeout rs
    /\ req_json ra = Some pa
    /\ req_json rs = Some ps
    /\ ps = delete "stream" pa
    /\ pa = <["stream" := JBool stream]> ps
    /\ (network w (wire w ++ [Opened AsyncClient]) ra
          = network w (wire w ++ [Opened Client]) rs ->
        (python_httpx_client.chat_completion self messages model
           temperature max_tokens stream w).1
        = (python_sync_client.chat_completion self messages model
             temperature max_tokens w).1).
Proof.
  intros Hself. eexists _, _, _, _.
  split; [by apply async_chat_traffic|].
  split; [by apply sync_chat_traffic|].
  do 4 (split; [done|]). do 2 (split; [reflexivity|]).
  split; [|split].
  - apply map_eq. intros k.
    destruct (decide (k = "stream")) as [->|Hk].
    + rewrite lookup_delete_eq. by vm_compute.
    + rewrite lookup_delete_ne by done.
      rewrite !lookup_insert.
      repeat case_decide; simplify_eq; try done.
      by rewrite !lookup_singleton_ne by done.
  - apply map_eq. intros k. rewrite !lookup_insert.
    repeat case_decide; simplify_eq; try done.
    by rewrite !lookup_singleton_ne by done.
  - intros E.
    rewrite (async_chat_run _ _ _ _ messages model temperature max_tokens
               stream Hself).
    rewrite (sync_chat_run _ _ _ _ messages model temperature max_tokens Hself).
    cbn [fst]. by rewrite E.
Qed.

Lemma sync_matches_async_up_to_stream_witness :
  live 0 "https://example.com" (stored_headers "bedrock-api-key-abc")
    (example_world (Responds (Response 401 "denied")))
  /\ (@python_httpx_client.chat_completion example_runtime 0 example_messages
        "gpt-4" 0.5 300 true (example_world (Responds (Response 401 "denied")))).1
     = (@python_sync_client.chat_completion example_runtime 0 example_messages
          "gpt-4" 0.5 300 (example_world (Responds (Response 401 "denied")))).1.
Proof.
  split; [apply example_live|].
  destruct (@sync_matches_async_up_to_stream example_runtime 0
              "https://example.com" (stored_headers "bedrock-api-key-abc")
              (example_world (Responds (Response 401 "denied")))
              example_messages "gpt-4" 0.5 300 true (example_live _))
    as (ra & rs & pa & ps & _ & _ & _ & _ & _ & _ & _ & _ & _ & _ & Hsame).
  apply Hsame. reflexivity.
Defined.

(** ** Errors *)

(** C4. On a live client, [chat_completion] sends the one request
    [async_chat_request] (resp. [sync_chat_request]). When the transport
    answers it with a status code outside 200..299, the call raises
    [HTTPStatusError] carrying that response, status code and body, and so
    returns no value; when the transport fails, the call raises the
    [TransportError]. In both clients. *)
Theorem chat_completion_raises `{!Runtime}
    self b h w messages model temperature max_tokens stream :
  live self b h w ->
  traffic (python_httpx_client.chat_completion self messages model
             temperature max_tokens stream) w
    = [Opened AsyncClient;
       Sent AsyncClient
         (async_chat_request b h messages model temperature max_tokens stream);
       Closed AsyncClient]
  /\ traffic (python_sync_client.chat_completion self messages model
                temperature max_tokens) w
    = [Opened Client;
       Sent Client (sync_chat_request b h messages model temperature max_tokens);
       Closed Client]
  /\ (forall resp,
     network w (wire w ++ [Opened AsyncClient])
       (async_chat_request b h messages model temperature max_tokens stream)
       = Responds resp ->
     ~ (200 <= status_code resp <= 299) ->
     (python_httpx_client.chat_completion self messages model temperature
        max_tokens stream w).1 = Raise (HTTPStatusError resp))
  /\ (forall f,
     network w (wire w ++ [Opened AsyncClient])
       (async_chat_request b h messages model temperature max_tokens stream)
       = Fails f ->
     (python_httpx_client.chat_completion self messages model temperature
        max_tokens stream w).1 = Raise (TransportError f))
  /\ (forall resp,
     network w (wire w ++ [Opened Client])
       (sync_chat_request b h messages model temperature max_tokens)
       = Responds resp ->
     ~ (200 <= status_code resp <= 299) ->
     (python_sync_client.chat_completion self messages model temperature
        max_tokens w).1 = Raise (HTTPStatusError resp))
  /\ (forall f,
     network w (wire w ++ [Opened Client])
       (sync_chat_request b h messages model temperature max_tokens)
       = Fails f ->
     (python_sync_client.chat_completion self messages model temperature
        max_tokens w).1 = Raise (TransportError f)).
Proof.
  intros Hself.
  assert (Hstatus : forall resp,
    ~ (200 <= status_code resp <= 299) -> is_success resp = false).
  { intros resp Hs. unfold is_success. apply andb_false_iff. lia. }
  split; [by apply async_chat_traffic|].
  split; [by apply sync_chat_traffic|].
  split; [|split; [|split]].
  - intros resp Hnet Hs.
    rewrite (async_chat_run _ _ _ _ messages model temperature max_tokens
               stream Hself).
    cbn. rewrite Hnet. cbn. by rewrite (Hstatus resp Hs).
  - intros f Hnet.
    rewrite (async_chat_run _ _ _ _ messages model temperature max_tokens
               stream Hself).
    cbn. by rewrite Hnet.
  - intros resp Hnet Hs.
    rewrite (sync_chat_run _ _ _ _ messages model temperature max_tokens Hself).
    cbn. rewrite Hnet. cbn. by rewrite (Hstatus resp Hs).
  - intros f Hnet.
    rewrite (sync_chat_run _ _ _ _ messages model temperature max_tokens Hself).
    cbn. by rewrite Hnet.
Qed.

Lemma chat_completion_raises_witness :
  (@python_httpx_client.chat_completion example_runtime 0 example_messages
     "gpt-4" 0.5 300 false
     (example_world (Responds (Response 401 "denied")))).1
    = Raise (HTTPStatusError (Response 401 "denied"))
  /\ (@python_sync_client.chat_completion example_runtime 0 example_messages
        "gpt-4" 0.5 300
        (example_world (Responds (Response 401 "denied")))).1
    = Raise (HTTPStatusError (Response 401 "denied"))
  /\ (@python_httpx_client.chat_completion example_runtime 0 example_messages
        "gpt-4" 0.5 300 false (example_world (Fails TimeoutException))).1
    = Raise (TransportError TimeoutException)
  /\ (@python_sync_client.chat_completion example_runtime 0 example_messages
        "gpt-4" 0.5 300 (example_world (Fails TimeoutException))).1
    = Raise (TransportError TimeoutException).
Proof.
  pose proof (@chat_completion_raises example_runtime 0 "https://example.com"
                (stored_headers "bedrock-api-key-abc")
                (example_world (Responds (Response 401 "denied")))
                example_messages "gpt-4" 0.5 300 false (example_live _))
    as (_ & _ & Ha & _ & Hs & _).
  pose proof (@chat_completion_raises example_runtime 0 "https://example.com"
                (stored_headers "bedrock-api-key-abc")
                (example_world (Fails TimeoutException))
                example_messages "gpt-4" 0.5 300 false (example_live _))
    as (_ & _ & _ & Hat & _ & Hst).
  split; [apply Ha; [reflexivity | cbn; lia]|].
  split; [apply Hs; [reflexivity | cbn; lia]|].
  split; [apply Hat; reflexivity | apply Hst; reflexivity].
Defined.

(** C5. On a live client, [chat_completion] sends the one request
    [async_chat_request] (resp. [sync_chat_request]). When the transport
    answers it with a status code in 200..299, the call returns the body
    decoded as JSON when the body is a JSON document, and raises
    [JSONDecodeError], returning nothing, when it is not. In both clients. *)
Theorem chat_completion_decodes `{!Runtime}
    self b h w messages model temperature max_tokens stream :
  live self b h w ->
  traffic (python_httpx_client.chat_completion self messages model
             temperature max_tokens stream) w
    = [Opened AsyncClient;
       Sent AsyncClient
         (async_chat_request b h messages model temperature max_tokens stream);
       Closed AsyncClient]
  /\ traffic (python_sync_client.chat_completion self messages model
                temperature max_tokens) w
    = [Opened Client;
       Sent Client (sync_chat_request b h messages model temperature max_tokens);
       Closed Client]
  /\ (forall resp,
     network w (wire w ++ [Opened AsyncClient])
       (async_chat_request b h messages model temperature max_tokens stream)
       = Responds resp ->
     200 <= status_code resp <= 299 ->
     (forall v, json_loads (text resp) = Some v ->
        (python_httpx_client.chat_completion self messages model temperature
           max_tokens stream w).1 = Ok v)
     /\ (json_loads (text resp) = None ->
        (python_httpx_client.chat_completion self messages model temperature
           max_tokens stream w).1 = Raise (JSONDecodeError (text resp))))
  /\ (forall resp,
     network w (wire w ++ [Opened Client])
       (sync_chat_request b h messages model temperature max_tokens)
       = Responds resp ->
     200 <= status_code resp <= 299 ->
     (forall v, json_loads (text resp) = Some v ->
        (python_sync_client.chat_completion self messages model temperature
           max_tokens w).1 = Ok v)
     /\ (json_loads (text resp) = None ->
        (python_sync_client.chat_completion self messages model temperature
           max_tokens w).1 = Raise (JSONDecodeError (text resp)))).
Proof.
  intros Hself.
  assert (Hstatus : forall resp,
    200 <= status_code resp <= 299 -> is_success resp = true).
  { intros resp Hs. unfold is_success. apply andb_true_iff. lia. }
  split; [by apply async_chat_traffic|].
  split; [by apply sync_chat_traffic|].
  split.
  - intros resp Hnet Hs.
    rewrite (async_chat_run _ _ _ _ messages model temperature max_tokens
               stream Hself).
    cbn. rewrite Hnet. cbn. rewrite (Hstatus resp Hs).
    split; [intros v Hv|intros Hv]; by rewrite Hv.
  - intros resp Hnet Hs.
    rewrite (sync_chat_run _ _ _ _ messages model temperature max_tokens Hself).
    cbn. rewrite Hnet. cbn. rewrite (Hstatus resp Hs).
    split; [intros v Hv|intros Hv]; by rewrite Hv.
Qed.

Lemma chat_completion_decodes_witness :
  (@python_httpx_client.chat_completion example_runtime 0 example_messages
     "gpt-4" 0.5 300 false (example_world (Responds (Response 200 "{}")))).1
    = Ok (JDict ∅)
  /\ (@python_sync_client.chat_completion example_runtime 0 example_messages
        "gpt-4" 0.5 300 (example_world (Responds (Response 200 "{}")))).1
    = Ok (JDict ∅)
  /\ (@python_httpx_client.chat_completion example_runtime 0 example_messages
        "gpt-4" 0.5 300 false
        (example_world (Responds (Response 200 "{oops")))).1
    = Raise (JSONDecodeError "{oops")
  /\ (@python_sync_client.chat_completion example_runtime 0 example_messages
        "gpt-4" 0.5 300 (example_world (Responds (Response 200 "{oops")))).1
    = Raise (JSONDecodeError "{oops").
Proof.
  pose proof (@chat_completion_decodes example_runtime 0 "https://example.com"
                (stored_headers "bedrock-api-key-abc")
                (example_world (Responds (Response 200 "{}")))
                example_messages "gpt-4" 0.5 300 false (example_live _))
    as (_ & _ & Ha & Hs).
  pose proof (@chat_completion_decodes example_runtime 0 "https://example.com"
                (stored_headers "bedrock-api-key-abc")
                (example_world (Responds (Response 200 "{oops")))
                example_messages "gpt-4" 0.5 300 false (example_live _))
    as (_ & _ & Hab & Hsb).
  split; [apply (Ha (Response 200 "{}")); [reflexivity | cbn; lia | reflexivity]|].
  split; [apply (Hs (Response 200 "{}")); [reflexivity | cbn; lia | reflexivity]|].
  split.
  - apply (Hab (Response 200 "{oops")); [reflexivity | cbn; lia | reflexivity].
  - apply (Hsb (Response 200 "{oops")); [reflexivity | cbn; lia | reflexivity].
Defined.

(** ** [list_models] *)

(** C6. On a live client, [list_models] sends exactly one request: a GET to
    the stored base URL followed by [/v1/models], without a body; and its
    headers, the [Authorization] header among them, are those
    [chat_completion] sends for the same client. In both clients. *)
Theorem list_models_gets_once `{!Runtime}
    self b h w messages model temperature max_tokens stream :
  live self b h w ->
  (exists r rc,
     traffic (python_httpx_client.list_models self) w
       = [Opened AsyncClient; Sent AsyncClient r; Closed AsyncClient]
     /\ req_method r = GET
     /\ req_url r = b +:+ "/v1/models"
     /\ req_json r = None
     /\ traffic (python_httpx_client.chat_completion self messages model
                   temperature max_tokens stream) w
       = [Opened AsyncClient; Sent AsyncClient rc; Closed AsyncClient]
     /\ req_headers r = req_headers rc
     /\ req_headers r !! "Authorization" = req_headers rc !! "Authorization")
  /\ (exists r rc,
     traffic (python_sync_client.list_models self) w
       = [Opened Client; Sent Client r; Closed Client]
     /\ req_method r = GET
     /\ req_url r = b +:+ "/v1/models"
     /\ req_json r = None
     /\ traffic (python_sync_client.chat_completion self messages model
                   temperature max_tokens) w
       = [Opened Client; Sent Client rc; Closed Client]
     /\ req_headers r = req_headers rc
     /\ req_headers r !! "Authorization" = req_headers rc !! "Authorization").
Proof.
  intros Hself. split.
  - eexists _, _. split; [by apply async_models_traffic|].
    do 3 (split; [done|]). split; [by apply async_chat_traffic|]. done.
  - eexists _, _. split; [by apply sync_models_traffic|].
    do 3 (split; [done|]). split; [by apply sync_chat_traffic|]. done.
Qed.

Lemma list_models_gets_once_witness :
  live 0 "https://example.com" (stored_headers "bedrock-api-key-abc")
    (example_world (Responds (Response 200 "{}")))
  /\ exists r rc,
     traffic (@python_httpx_client.list_models example_runtime 0)
             (example_world (Responds (Response 200 "{}")))
       = [Opened AsyncClient; Sent AsyncClient r; Closed AsyncClient]
     /\ req_method r = GET
     /\ req_url r = "https://example.com" +:+ "/v1/models"
     /\ req_json r = None
     /\ traffic (@python_httpx_client.chat_completion example_runtime 0
                   example_messages "gpt-4" 0.5 300 false)
                (example_world (Responds (Response 200 "{}")))
       = [Opened AsyncClient; Sent AsyncClient rc; Closed AsyncClient]
     /\ req_headers r = req_headers rc
     /\ req_headers r !! "Authorization" = req_headers rc !! "Authorization".
Proof.
  split; [apply example_live|].
  apply (@list_models_gets_once example_runtime 0 "https://example.com"
           (stored_headers "bedrock-api-key-abc")
           (example_world (Responds (Response 200 "{}")))
           example_messages "gpt-4" 0.5 300 false (example_live _)).
Defined.

(** ** The request of [chat_completion], from construction *)

Section FreshChat.
  Context `{!Runtime}.

Lemma async_new_chat_traffic base token w messages model temperature
    max_tokens stream :
  traffic (self ← python_httpx_client.BedrockOpenAIClient base token;
           python_httpx_client.chat_completion self messages model
             temperature max_tokens stream) w
  = [Opened AsyncClient;
     Sent AsyncClient
       (async_chat_request (rstrip "/" base) (stored_headers token)
          messages model temperature max_tokens stream);
     Closed AsyncClient].
Proof.
  eapply (traffic_exchanged _ w _ _ _ (constructed base token w)); [done|].
  rewrite (bind_ok _ _ _ _ _ (async_new_run base token w)).
  apply async_chat_run, constructed_live.
Qed.

Lemma sync_new_chat_traffic base token w messages model temperature
    max_tokens :
  traffic (self ← python_sync_client.BedrockOpenAIClientSync base token;
           python_sync_client.chat_completion self messages model
             temperature max_tokens) w
  = [Opened Client;
     Sent Client
       (sync_chat_request (rstrip "/" base) (stored_headers token)
          messages model temperature max_tokens);
     Closed Client].
Proof.
  eapply (traffic_exchanged _ w _ _ _ (constructed base token w)); [done|].
  rewrite (bind_ok _ _ _ _ _ (sync_new_run base token w)).
  apply sync_chat_run, constructed_live.
Qed.

End FreshChat.

(** C7, as stated, fails: no constructor argument, no call argument and no
    world makes either [chat_completion] send its request with a timeout
    other than 30, so the timeout is not the caller's to configure. *)
Lemma chat_completion_timeout_is_fixed :
  ~ (exists (R : Runtime) base token messages model temperature max_tokens
            stream w r,
       (traffic (self ← python_httpx_client.BedrockOpenAIClient base token;
                 python_httpx_client.chat_completion self messages model
                   temperature max_tokens stream) w
          = [Opened AsyncClient; Sent AsyncClient r; Closed AsyncClient]
        \/ traffic (self ← python_sync_client.BedrockOpenAIClientSync base token;
                    python_sync_client.chat_completion self messages model
                      temperature max_tokens) w
          = [Opened Client; Sent Client r; Closed Client])
       /\ req_timeout r <> 30%Q).
Proof.
  intros (R & base & token & messages & model & temperature & max_tokens
          & stream & w & r & [Ht|Ht] & Hr); apply Hr.
  - rewrite async_new_chat_traffic in Ht. by injection Ht as <-.
  - rewrite sync_new_chat_traffic in Ht. by injection Ht as <-.
Qed.

(** C7, amended. [chat_completion] performs its POST with the timeout 30,
    fixed in the code: neither the constructor nor the call takes a timeout.
    The POST goes to the stored base URL followed by [/v1/chat/completions],
    with the headers [Authorization: Bearer <token>] and
    [Content-Type: application/json]. In both clients. *)
Theorem chat_completion_post_shape `{!Runtime}
    base token w messages model temperature max_tokens stream :
  (exists r,
     traffic (self ← python_httpx_client.BedrockOpenAIClient base token;
              python_httpx_client.chat_completion self messages model
                temperature max_tokens stream) w
       = [Opened AsyncClient; Sent AsyncClient r; Closed AsyncClient]
     /\ req_method r = POST
     /\ req_url r = rstrip "/" base +:+ "/v1/chat/completions"
     /\ req_headers r !! "Authorization" = Some ("Bearer " +:+ token)
     /\ req_headers r !! "Content-Type" = Some "application/json"
     /\ dom (req_headers r) = {[ "Authorization"; "Content-Type" ]}
     /\ req_timeout r = 30%Q)
  /\ (exists r,
     traffic (self ← python_sync_client.BedrockOpenAIClientSync base token;
              python_sync_client.chat_completion self messages model
                temperature max_tokens) w
       = [Opened Client; Sent Client r; Closed Client]
     /\ req_method r = POST
     /\ req_url r = rstrip "/" base +:+ "/v1/chat/completions"
     /\ req_headers r !! "Authorization" = Some ("Bearer " +:+ token)
     /\ req_headers r !! "Content-Type" = Some "application/json"
     /\ dom (req_headers r) = {[ "Authorization"; "Content-Type" ]}
     /\ req_timeout r = 30%Q).
Proof.
  assert (Hauth : stored_headers token !! "Authorization"
                  = Some ("Bearer " +:+ token)).
  { unfold stored_headers. rewrite lookup_insert_ne by done.
    apply lookup_singleton_eq. }
  assert (Htype : stored_headers token !! "Content-Type"
                  = Some "application/json").
  { unfold stored_headers. apply lookup_insert_eq. }
  assert (Hdom : dom (stored_headers token)
                 = ({[ "Authorization"; "Content-Type" ]} : gset string)).
  { unfold stored_headers. rewrite dom_insert_L, dom_singleton_L. set_solver. }
  split.
  - eexists. split; [apply async_new_chat_traffic|]. by repeat split.
  - eexists. split; [apply sync_new_chat_traffic|]. by repeat split.
Qed.

(** ** The client object after construction *)

Create HintDb stable discriminated.

Lemma stable_mret {A} (a : A) : heap_stable (mret a).
Proof. by intros w. Qed.

Lemma stable_raise {A} (e : exn) : heap_stable (@raise A e).
Proof. by intros w. Qed.

Lemma stable_bind {A B} (m : M A) (f : A -> M B) :
  heap_stable m -> (forall a, heap_stable (f a)) -> heap_stable (m ≫= f).
Proof.
  intros Hm Hf w. unfold mbind, M_bind.
  specialize (Hm w). destruct (m w) as [[a|e] w']; cbn in *; [|done].
  by rewrite Hf.
Qed.

Lemma stable_getattr {A} (attr : instance -> option A) self :
  heap_stable (getattr attr self).
Proof. intros w. unfold getattr. by destruct (heap w !! self ≫= attr). Qed.

Lemma stable_send k r : heap_stable (send k r).
Proof. intros w. unfold send. by destruct (network w (wire w) r). Qed.

Lemma stable_raise_for_status r : heap_stable (raise_for_status r).
Proof. intros w. unfold raise_for_status. by destruct (is_success r). Qed.

Lemma stable_response_json `{!Runtime} r : heap_stable (response_json r).
Proof. intros w. unfold response_json. by destruct (json_loads (text r)). Qed.

Lemma stable_with_client {A} k (body : M A) :
  heap_stable body -> heap_stable (with_client k body).
Proof.
  intros Hb w. unfold with_client.
  specialize (Hb (log_event (Opened k) w)).
  by destruct (body (log_event (Opened k) w)) as [r w'].
Qed.

Lemma stable_print line : heap_stable (print line).
Proof. intros w. unfold print. by destruct (console w (stdout w) line). Qed.

Lemma stable_os_getenv name fallback : heap_stable (os_getenv name fallback).
Proof. by intros w. Qed.

#[export] Hint Resolve stable_mret stable_raise stable_getattr stable_send
  stable_raise_for_status stable_response_json stable_print stable_os_getenv
  : stable.

Ltac stable :=
  repeat first
    [ apply stable_with_client
    | apply stable_bind; [|intros ?]
    | solve [auto with stable] ].

Section Calls.
  Context `{!Runtime}.

Lemma async_chat_stable self messages model temperature max_tokens stream :
  heap_stable (python_httpx_client.chat_completion self messages model
                 temperature max_tokens stream).
Proof. unfold python_httpx_client.chat_completion, client_post. stable. Qed.

Lemma async_models_stable self :
  heap_stable (python_httpx_client.list_models self).
Proof. unfold python_httpx_client.list_models, client_get. stable. Qed.

Lemma sync_chat_stable self messages model temperature max_tokens :
  heap_stable (python_sync_client.chat_completion self messages model
                 temperature max_tokens).
Proof. unfold python_sync_client.chat_completion, client_post. stable. Qed.

Lemma sync_models_stable self :
  heap_stable (python_sync_client.list_models self).
Proof. unfold python_sync_client.list_models, client_get. stable. Qed.

Lemma after_calls_heap {C} (perform : C -> M json) calls w :
  (forall c, heap_stable (perform c)) ->
  heap (after_calls perform calls w) = heap w.
Proof.
  intros Hp. unfold after_calls. revert w.
  induction calls as [|c calls IH]; intros w; [done|].
  cbn [fold_left]. rewrite IH. apply Hp.
Qed.

End Calls.

(** C8. The configuration of a client does not change after construction:
    whatever sequence of [chat_completion] and [list_models] calls is made on
    a newly constructed client, with whatever outcomes, its [base_url] and
    [headers] afterwards are those [__init__] assigned: the normalised base
    URL and the two headers built from the token. In both clients. *)
Theorem client_configuration_immutable `{!Runtime} base token w :
  (exists self w1 cfg,
     python_httpx_client.BedrockOpenAIClient base token w = (Ok self, w1)
     /\ cfg = Instance (Some (rstrip "/" base))
                (Some {[ "Content-Type" := "application/json";
                         "Authorization" := "Bearer " +:+ token ]})
     /\ heap w1 !! self = Some cfg
     /\ forall calls,
          heap (after_calls (async_perform self) calls w1) !! self = Some cfg)
  /\ (exists self w1 cfg,
     python_sync_client.BedrockOpenAIClientSync base token w = (Ok self, w1)
     /\ cfg = Instance (Some (rstrip "/" base))
                (Some {[ "Content-Type" := "application/json";
                         "Authorization" := "Bearer " +:+ token ]})
     /\ heap w1 !! self = Some cfg
     /\ forall calls,
          heap (after_calls (sync_perform self) calls w1) !! self = Some cfg).
Proof.
  split.
  - eexists _, _, _. split; [apply async_new_run|]. split; [reflexivity|].
    split; [apply constructed_live|]. intros calls.
    rewrite after_calls_heap; [apply constructed_live|].
    intros [messages model temperature max_tokens stream|];
      [apply async_chat_stable | apply async_models_stable].
  - eexists _, _, _. split; [apply sync_new_run|]. split; [reflexivity|].
    split; [apply constructed_live|]. intros calls.
    rewrite after_calls_heap; [apply constructed_live|].
    intros [messages model temperature max_tokens|];
      [apply sync_chat_stable | apply sync_models_stable].
Qed.

(** ** Lines and the stream *)

Lemma accepted_app c history l1 l2 :
  accepted c history (l1 ++ l2)
  <-> accepted c history l1 /\ accepted c (history ++ l1) l2.
Proof.
  revert history. induction l1 as [|line l1 IH]; intros history.
  - cbn [app accepted]. rewrite app_nil_r. tauto.
  - cbn [app accepted]. rewrite IH, <- app_assoc. cbn [app]. tauto.
Qed.

Lemma accepted_quiet w history lines :
  quiet w -> accepted (console w) history lines.
Proof.
  intros Hq. revert history.
  induction lines as [|line lines IH]; intros history; cbn [accepted]; auto.
Qed.

Lemma print_ok line w :
  console w (stdout w) line = None ->
  print line w = (Ok tt, set_stdout (stdout w ++ [line]) w).
Proof. intros Hc. unfold print. by rewrite Hc. Qed.

Lemma print_refused line f w :
  console w (stdout w) line = Some f ->
  print line w = (Raise (print_exn f), w).
Proof. intros Hc. unfold print. by rewrite Hc. Qed.

Lemma print_bind {B} line (k : unit -> M B) w :
  console w (stdout w) line = None ->
  (print line ≫= k) w = k tt (set_stdout (stdout w ++ [line]) w).
Proof. intros Hc. unfold mbind, M_bind. by rewrite (print_ok _ _ Hc). Qed.

Lemma print_bind_refused {B} line (k : unit -> M B) f w :
  console w (stdout w) line = Some f ->
  (print line ≫= k) w = (Raise (print_exn f), w).
Proof. intros Hc. unfold mbind, M_bind. by rewrite (print_refused _ _ _ Hc). Qed.

(** [print_lines] prints the lines the stream takes, up to the first one it
    refuses, and touches nothing else. *)
Lemma print_lines_accepted lines w :
  accepted (console w) (stdout w) lines ->
  print_lines lines w = (Ok tt, set_stdout (stdout w ++ lines) w).
Proof.
  revert w. induction lines as [|line lines IH]; intros w Hacc.
  - cbn. rewrite app_nil_r. by destruct w.
  - destruct Hacc as [Hline Hrest]. cbn [print_lines foldr].
    rewrite (print_bind _ _ _ Hline).
    change (foldr _ _ lines) with (print_lines lines).
    rewrite IH by exact Hrest. cbn. by rewrite <- app_assoc.
Qed.

Lemma print_lines_refused lines w :
  ~ accepted (console w) (stdout w) lines ->
  exists f k,
    (k < length lines)%nat
    /\ (print_lines lines w).1 = Raise (print_exn f)
    /\ stdout (print_lines lines w).2 = stdout w ++ take k lines.
Proof.
  revert w. induction lines as [|line lines IH]; intros w Hacc.
  - by destruct Hacc.
  - cbn [print_lines foldr].
    destruct (console w (stdout w) line) as [f|] eqn:Hline.
    + rewrite !(print_bind_refused _ _ _ _ Hline). exists f, 0%nat. cbn.
      rewrite app_nil_r. split; [lia|done].
    + rewrite !(print_bind _ _ _ Hline).
      change (foldr _ _ lines) with (print_lines lines).
      destruct (IH (set_stdout (stdout w ++ [line]) w)) as (f & k & Hk & Hr & Ho).
      { intros Hrest. apply Hacc. by split. }
      exists f, (S k). cbn in Ho |- *. rewrite Ho, <- app_assoc.
      split; [lia|done].
Qed.

Lemma print_lines_heap lines w : heap (print_lines lines w).2 = heap w.
Proof.
  revert w. induction lines as [|line lines IH]; intros w; [done|].
  cbn [print_lines foldr].
  destruct (console w (stdout w) line) as [f|] eqn:Hline.
  - by rewrite (print_bind_refused _ _ _ _ Hline).
  - rewrite (print_bind _ _ _ Hline).
    change (foldr _ _ lines) with (print_lines lines). by rewrite IH.
Qed.

Lemma print_lines_wire lines w : wire (print_lines lines w).2 = wire w.
Proof.
  revert w. induction lines as [|line lines IH]; intros w; [done|].
  cbn [print_lines foldr].
  destruct (console w (stdout w) line) as [f|] eqn:Hline.
  - by rewrite (print_bind_refused _ _ _ _ Hline).
  - rewrite (print_bind _ _ _ Hline).
    change (foldr _ _ lines) with (print_lines lines). by rewrite IH.
Qed.

(** ** The drivers without a token *)

Lemma getenv_bind {B} name fallback (f : string -> M B) w :
  (os_getenv name fallback ≫= f) w
  = f (default fallback (environ w !! name)) w.
Proof. reflexivity. Qed.

Section Drivers.
  Context `{!Runtime}.

(** Without a token of its own a driver does nothing but print the
    warning. *)
Lemma async_main_guard w :
  default placeholder_token (environ w !! "AWS_BEARER_TOKEN_BEDROCK")
    = placeholder_token ->
  python_httpx_client.main w = print_lines token_warning w.
Proof.
  unfold placeholder_token. intros Henv. unfold python_httpx_client.main.
  rewrite !getenv_bind, Henv, String.eqb_refl. reflexivity.
Qed.

Lemma sync_main_guard w :
  default placeholder_token (environ w !! "AWS_BEARER_TOKEN_BEDROCK")
    = placeholder_token ->
  python_sync_client.main w = print_lines token_warning w.
Proof.
  unfold placeholder_token. intros Henv. unfold python_sync_client.main.
  rewrite !getenv_bind, Henv, String.eqb_refl. reflexivity.
Qed.

(** What a driver that only prints the warning does. *)
Lemma warning_only (main : M unit) w :
  main w = print_lines token_warning w ->
  heap (main w).2 = heap w
  /\ wire (main w).2 = wire w
  /\ (accepted (console w) (stdout w) token_warning ->
      (main w).1 = Ok tt
      /\ stdout (main w).2 = stdout w ++ token_warning)
  /\ (~ accepted (console w) (stdout w) token_warning ->
      exists f k,
        (k < 3)%nat
        /\ (main w).1 = Raise (print_exn f)
        /\ stdout (main w).2 = stdout w ++ take k token_warning).
Proof.
  intros ->. split; [apply print_lines_heap|].
  split; [apply print_lines_wire|]. split.
  - intros Hacc. by rewrite (print_lines_accepted _ _ Hacc).
  - intros Hacc. exact (print_lines_refused _ _ Hacc).
Qed.

End Drivers.




(** * Further properties *)

(** ** [list_models]: errors and results *)

(** X1. On a live client, [list_models] sends the one request
    [models_request]. When the transport answers it with a status code
    outside 200..299 the call raises [HTTPStatusError] carrying that
    response; when the transport fails the call raises the
    [TransportError]. In both clients. *)
Theorem list_models_raises `{!Runtime} self b h w :
  live self b h w ->
  traffic (python_httpx_client.list_models self) w
    = [Opened AsyncClient; Sent AsyncClient (models_request b h);
       Closed AsyncClient]
  /\ traffic (python_sync_client.list_models self) w
    = [Opened Client; Sent Client (models_request b h); Closed Client]
  /\ (forall resp,
     network w (wire w ++ [Opened AsyncClient]) (models_request b h)
       = Responds resp ->
     ~ (200 <= status_code resp <= 299) ->
     (python_httpx_client.list_models self w).1 = Raise (HTTPStatusError resp))
  /\ (forall f,
     network w (wire w ++ [Opened AsyncClient]) (models_request b h) = Fails f ->
     (python_httpx_client.list_models self w).1 = Raise (TransportError f))
  /\ (forall resp,
     network w (wire w ++ [Opened Client]) (models_request b h)
       = Responds resp ->
     ~ (200 <= status_code resp <= 299) ->
     (python_sync_client.list_models self w).1 = Raise (HTTPStatusError resp))
  /\ (forall f,
     network w (wire w ++ [Opened Client]) (models_request b h) = Fails f ->
     (python_sync_client.list_models self w).1 = Raise (TransportError f)).
Proof.
  intros Hself.
  assert (Hstatus : forall resp,
    ~ (200 <= status_code resp <= 299) -> is_success resp = false).
  { intros resp Hs. unfold is_success. apply andb_false_iff. lia. }
  split; [by apply async_models_traffic|].
  split; [by apply sync_models_traffic|].
  split; [|split; [|split]].
  - intros resp Hnet Hs. rewrite (async_models_run _ _ _ _ Hself).
    cbn. rewrite Hnet. cbn. by rewrite (Hstatus resp Hs).
  - intros f Hnet. rewrite (async_models_run _ _ _ _ Hself).
    cbn. by rewrite Hnet.
  - intros resp Hnet Hs. rewrite (sync_models_run _ _ _ _ Hself).
    cbn. rewrite Hnet. cbn. by rewrite (Hstatus resp Hs).
  - intros f Hnet. rewrite (sync_models_run _ _ _ _ Hself).
    cbn. by rewrite Hnet.
Qed.

Lemma list_models_raises_witness :
  (@python_httpx_client.list_models example_runtime 0
     (example_world (Responds (Response 503 "busy")))).1
    = Raise (HTTPStatusError (Response 503 "busy"))
  /\ (@python_sync_client.list_models example_runtime 0
        (example_world (Responds (Response 301 "")))).1
    = Raise (HTTPStatusError (Response 301 ""))
  /\ (@python_httpx_client.list_models example_runtime 0
        (example_world (Fails NetworkError))).1
    = Raise (TransportError NetworkError)
  /\ (@python_sync_client.list_models example_runtime 0
        (example_world (Fails TimeoutException))).1
    = Raise (TransportError TimeoutException).
Proof.
  pose proof (@list_models_raises example_runtime 0 "https://example.com"
                (stored_headers "bedrock-api-key-abc")
                (example_world (Responds (Response 503 "busy")))
                (example_live _)) as (_ & _ & Ha & _).
  pose proof (@list_models_raises example_runtime 0 "https://example.com"
                (stored_headers "bedrock-api-key-abc")
                (example_world (Responds (Response 301 "")))
                (example_live _)) as (_ & _ & _ & _ & Hs & _).
  pose proof (@list_models_raises example_runtime 0 "https://example.com"
                (stored_headers "bedrock-api-key-abc")
                (example_world (Fails NetworkError))
                (example_live _)) as (_ & _ & _ & Haf & _).
  pose proof (@list_models_raises example_runtime 0 "https://example.com"
                (stored_headers "bedrock-api-key-abc")
                (example_world (Fails TimeoutException))
                (example_live _)) as (_ & _ & _ & _ & _ & Hsf).
  split; [apply Ha; [reflexivity | cbn; lia]|].
  split; [apply Hs; [reflexivity | cbn; lia]|].
  split; [apply Haf; reflexivity | apply Hsf; reflexivity].
Defined.

(** X2. On a live client, when the transport answers [list_models] with a
    status code in 200..299, the call returns the body decoded as JSON when
    the body is a JSON document, and raises [JSONDecodeError] over the raw
    body when it is not. In both clients. *)
Theorem list_models_decodes `{!Runtime} self b h w :
  live self b h w ->
  (forall resp,
     network w (wire w ++ [Opened AsyncClient]) (models_request b h)
       = Responds resp ->
     200 <= status_code resp <= 299 ->
     (forall v, json_loads (text resp) = Some v ->
        (python_httpx_client.list_models self w).1 = Ok v)
     /\ (json_loads (text resp) = None ->
        (python_httpx_client.list_models self w).1
        = Raise (JSONDecodeError (text resp))))
  /\ (forall resp,
     network w (wire w ++ [Opened Client]) (models_request b h)
       = Responds resp ->
     200 <= status_code resp <= 299 ->
     (forall v, json_loads (text resp) = Some v ->
        (python_sync_client.list_models self w).1 = Ok v)
     /\ (json_loads (text resp) = None ->
        (python_sync_client.list_models self w).1
        = Raise (JSONDecodeError (text resp)))).
Proof.
  intros Hself.
  assert (Hstatus : forall resp,
    200 <= status_code resp <= 299 -> is_success resp = true).
  { intros resp Hs. unfold is_success. apply andb_true_iff. lia. }
  split.
  - intros resp Hnet Hs. rewrite (async_models_run _ _ _ _ Hself).
    cbn. rewrite Hnet. cbn. rewrite (Hstatus resp Hs).
    split; [intros v Hv|intros Hv]; by rewrite Hv.
  - intros resp Hnet Hs. rewrite (sync_models_run _ _ _ _ Hself).
    cbn. rewrite Hnet. cbn. rewrite (Hstatus resp Hs).
    split; [intros v Hv|intros Hv]; by rewrite Hv.
Qed.

Lemma list_models_decodes_witness :
  (@python_httpx_client.list_models example_runtime 0
     (example_world (Responds (Response 204 "null")))).1 = Ok JNull
  /\ (@python_sync_client.list_models example_runtime 0
        (example_world (Responds (Response 200 "")))).1
    = Raise (JSONDecodeError "").
Proof.
  pose proof (@list_models_decodes example_runtime 0 "https://example.com"
                (stored_headers "bedrock-api-key-abc")
                (example_world (Responds (Response 204 "null")))
                (example_live _)) as (Ha & _).
  pose proof (@list_models_decodes example_runtime 0 "https://example.com"
                (stored_headers "bedrock-api-key-abc")
                (example_world (Responds (Response 200 "")))
                (example_live _)) as (_ & Hs).
  split.
  - apply (Ha (Response 204 "null")); [reflexivity | cbn; lia | reflexivity].
  - apply (Hs (Response 200 "")); [reflexivity | cbn; lia | reflexivity].
Defined.

(** X3. The request [list_models] sends on a newly constructed client: a GET
    without body to the normalised base URL followed by [/v1/models], with
    exactly the two headers [Authorization: Bearer <token>] and
    [Content-Type: application/json], under the timeout 10, shorter than
    the 30 of [chat_completion]. In both clients. *)
Theorem list_models_get_shape `{!Runtime} base token w :
  (exists r,
     traffic (self ← python_httpx_client.BedrockOpenAIClient base token;
              python_httpx_client.list_models self) w
       = [Opened AsyncClient; Sent AsyncClient r; Closed AsyncClient]
     /\ req_method r = GET
     /\ req_url r = rstrip "/" base +:+ "/v1/models"
     /\ req_json r = None
     /\ req_headers r !! "Authorization" = Some ("Bearer " +:+ token)
     /\ req_headers r !! "Content-Type" = Some "application/json"
     /\ dom (req_headers r) = {[ "Authorization"; "Content-Type" ]}
     /\ req_timeout r = 10%Q
     /\ (req_timeout r < 30)%Q)
  /\ (exists r,
     traffic (self ← python_sync_client.BedrockOpenAIClientSync base token;
              python_sync_client.list_models self) w
       = [Opened Client; Sent Client r; Closed Client]
     /\ req_method r = GET
     /\ req_url r = rstrip "/" base +:+ "/v1/models"
     /\ req_json r = None
     /\ req_headers r !! "Authorization" = Some ("Bearer " +:+ token)
     /\ req_headers r !! "Content-Type" = Some "application/json"
     /\ dom (req_headers r) = {[ "Authorization"; "Content-Type" ]}
     /\ req_timeout r = 10%Q
     /\ (req_timeout r < 30)%Q).
Proof.
  assert (Hauth : stored_headers token !! "Authorization"
                  = Some ("Bearer " +:+ token)).
  { unfold stored_headers. rewrite lookup_insert_ne by done.
    apply lookup_singleton_eq. }
  assert (Htype : stored_headers token !! "Content-Type"
                  = Some "application/json").
  { unfold stored_headers. apply lookup_insert_eq. }
  assert (Hdom : dom (stored_headers token)
                 = ({[ "Authorization"; "Content-Type" ]} : gset string)).
  { unfold stored_headers. rewrite dom_insert_L, dom_singleton_L. set_solver. }
  split.
  - eexists. split; [apply async_new_models_traffic|]. by repeat split.
  - eexists. split; [apply sync_new_models_traffic|]. by repeat split.
Qed.

(** ** [chat_completion]: the arguments in the payload *)

(** X4. [chat_completion] validates nothing and changes nothing: on a live
    client and for any arguments whatever, an empty message list and a
    non-positive [max_tokens] included, the body it posts maps [model],
    [messages], [temperature], [max_tokens] (and, in the asynchronous
    client, [stream]) to the values given. *)
Theorem chat_completion_passes_arguments `{!Runtime}
    self b h w messages model temperature max_tokens stream :
  live self b h w ->
  (exists r body,
     traffic (python_httpx_client.chat_completion self messages model
                temperature max_tokens stream) w
       = [Opened AsyncClient; Sent AsyncClient r; Closed AsyncClient]
     /\ req_json r = Some body
     /\ body !! "model" = Some (JStr model)
     /\ body !! "messages" = Some (JList messages)
     /\ body !! "temperature" = Some (JFloat temperature)
     /\ body !! "max_tokens" = Some (JInt max_tokens)
     /\ body !! "stream" = Some (JBool stream))
  /\ (exists r body,
     traffic (python_sync_client.chat_completion self messages model
                temperature max_tokens) w
       = [Opened Client; Sent Client r; Closed Client]
     /\ req_json r = Some body
     /\ body !! "model" = Some (JStr model)
     /\ body !! "messages" = Some (JList messages)
     /\ body !! "temperature" = Some (JFloat temperature)
     /\ body !! "max_tokens" = Some (JInt max_tokens)
     /\ body !! "stream" = None).
Proof.
  intros Hself. split.
  - eexists _, _. split; [by apply async_chat_traffic|].
    split; [reflexivity|].
    repeat split; rewrite !lookup_insert; repeat case_decide; simplify_eq;
      try done; by rewrite ?lookup_singleton_eq, ?lookup_singleton_ne by done.
  - eexists _, _. split; [by apply sync_chat_traffic|].
    split; [reflexivity|].
    repeat split; rewrite !lookup_insert; repeat case_decide; simplify_eq;
      try done; by rewrite ?lookup_singleton_eq, ?lookup_singleton_ne by done.
Qed.

Lemma chat_completion_passes_arguments_witness :
  exists r body,
    traffic (@python_httpx_client.chat_completion example_runtime 0 [] ""
               (-3) (-5) true)
            (example_world (Responds (Response 200 "{}")))
      = [Opened AsyncClient; Sent AsyncClient r; Closed AsyncClient]
    /\ req_json r = Some body
    /\ body !! "model" = Some (JStr "")
    /\ body !! "messages" = Some (JList [])
    /\ body !! "temperature" = Some (JFloat (-3))
    /\ body !! "max_tokens" = Some (JInt (-5))
    /\ body !! "stream" = Some (JBool true).
Proof.
  apply (@chat_completion_passes_arguments example_runtime 0
           "https://example.com" (stored_headers "bedrock-api-key-abc")
           (example_world (Responds (Response 200 "{}")))
           [] "" (-3)%Q (-5) true (example_live _)).
Defined.

(** ** Sequences of calls *)

Section Sequences.
  Context `{!Runtime}.

Lemma async_perform_run self b h w c :
  live self b h w ->
  (async_perform self c w).2 = exchanged AsyncClient (async_request_of b h c) w.
Proof.
  intros Hself. destruct c as [messages model temperature max_tokens stream|].
  - cbn. by rewrite (async_chat_run _ _ _ _ messages model temperature
                       max_tokens stream Hself).
  - cbn. by rewrite (async_models_run _ _ _ _ Hself).
Qed.

Lemma sync_perform_run self b h w c :
  live self b h w ->
  (sync_perform self c w).2 = exchanged Client (sync_request_of b h c) w.
Proof.
  intros Hself. destruct c as [messages model temperature max_tokens|].
  - cbn. by rewrite (sync_chat_run _ _ _ _ messages model temperature
                       max_tokens Hself).
  - cbn. by rewrite (sync_models_run _ _ _ _ Hself).
Qed.

Lemma live_exchanged self b h k r w :
  live self b h w -> live self b h (exchanged k r w).
Proof. done. Qed.

End Sequences.

(** X5. Calls are independent and never repeated: whatever calls are made
    one after the other on a live client, and whatever each of them returns
    or raises, the wire gets one exchange per call, in call order, and the
    request of each exchange is the one its own arguments and the client's
    configuration determine. No call is retried, skipped or answered from an
    earlier one. In both clients. *)
Theorem calls_one_exchange_each `{!Runtime} self b h w :
  live self b h w ->
  (forall calls,
     wire (after_calls (async_perform self) calls w)
     = wire w ++ flat_map (fun c => [Opened AsyncClient;
                                     Sent AsyncClient (async_request_of b h c);
                                     Closed AsyncClient]) calls)
  /\ (forall calls,
     wire (after_calls (sync_perform self) calls w)
     = wire w ++ flat_map (fun c => [Opened Client;
                                     Sent Client (sync_request_of b h c);
                                     Closed Client]) calls).
Proof.
  intros Hself. split; intros calls; revert w Hself; unfold after_calls.
  - induction calls as [|c calls IH]; intros w Hself; cbn [fold_left flat_map].
    + by rewrite app_nil_r.
    + rewrite (async_perform_run self b h w c Hself).
      rewrite IH by by apply live_exchanged.
      rewrite wire_exchanged. by rewrite <- app_assoc.
  - induction calls as [|c calls IH]; intros w Hself; cbn [fold_left flat_map].
    + by rewrite app_nil_r.
    + rewrite (sync_perform_run self b h w c Hself).
      rewrite IH by by apply live_exchanged.
      rewrite wire_exchanged. by rewrite <- app_assoc.
Qed.

Lemma calls_one_exchange_each_witness :
  requests (wire (after_calls (@async_perform example_runtime 0)
                    [AsyncModels; AsyncChat example_messages "gpt-4" 0.5 300 false;
                     AsyncModels]
                    (example_world (Responds (Response 500 "down")))))
  = [models_request "https://example.com" (stored_headers "bedrock-api-key-abc");
     async_chat_request "https://example.com"
       (stored_headers "bedrock-api-key-abc") example_messages "gpt-4" 0.5 300
       false;
     models_request "https://example.com" (stored_headers "bedrock-api-key-abc")].
Proof.
  destruct (@calls_one_exchange_each example_runtime 0 "https://example.com"
              (stored_headers "bedrock-api-key-abc")
              (example_world (Responds (Response 500 "down")))
              (example_live _)) as [Ha _].
  rewrite Ha. reflexivity.
Defined.

(** ** The drivers with a token *)

Lemma only_print_mret {A} (a : A) : print_failures_only (mret a).
Proof. intros w e. discriminate. Qed.

Lemma only_print_print line : print_failures_only (print line).
Proof.
  intros w e. unfold print.
  destruct (console w (stdout w) line) as [f|]; [|discriminate].
  intros [= <-]. by exists f.
Qed.

Lemma only_print_os_getenv name fallback :
  print_failures_only (os_getenv name fallback).
Proof. intros w e. discriminate. Qed.

Lemma only_print_bind {A B} (m : M A) (f : A -> M B) :
  print_failures_only m -> (forall a, print_failures_only (f a)) ->
  print_failures_only (m ≫= f).
Proof.
  intros Hm Hf w e. specialize (Hm w). unfold mbind, M_bind.
  destruct (m w) as [[a|e'] w']; [apply Hf|].
  cbn in *. intros [= <-]. by apply Hm.
Qed.

(** Of a [try] only what its handler raises escapes. *)
Lemma only_print_try_except {A} (body : M A) (handler : exn -> M A) :
  (forall e, print_failures_only (handler e)) ->
  print_failures_only (try_except body handler).
Proof.
  intros Hh w e. unfold try_except.
  destruct (body w) as [[a|e'] w']; [discriminate | apply Hh].
Qed.

Lemma only_print_async_new `{!Runtime} base token :
  print_failures_only (python_httpx_client.BedrockOpenAIClient base token).
Proof. intros w e. rewrite async_new_run. discriminate. Qed.

Lemma only_print_sync_new `{!Runtime} base token :
  print_failures_only (python_sync_client.BedrockOpenAIClientSync base token).
Proof. intros w e. rewrite sync_new_run. discriminate. Qed.

Ltac only_print :=
  repeat match goal with
  | |- print_failures_only (mret _) => apply only_print_mret
  | |- print_failures_only (print _) => apply only_print_print
  | |- print_failures_only (os_getenv _ _) => apply only_print_os_getenv
  | |- print_failures_only (python_httpx_client.BedrockOpenAIClient _ _) =>
      apply only_print_async_new
  | |- print_failures_only (python_sync_client.BedrockOpenAIClientSync _ _) =>
      apply only_print_sync_new
  | |- print_failures_only (mbind _ _) => apply only_print_bind; [|intros ?]
  | |- print_failures_only (try_except _ _) =>
      apply only_print_try_except; intros []; cbv beta iota
  end.

Lemma console_mret {A} (a : A) : console_stable (mret a).
Proof. done. Qed.

Lemma console_raise {A} (e : exn) : console_stable (@raise A e).
Proof. done. Qed.

Lemma console_bind {A B} (m : M A) (f : A -> M B) :
  console_stable m -> (forall a, console_stable (f a)) ->
  console_stable (m ≫= f).
Proof.
  intros Hm Hf w. unfold mbind, M_bind. specialize (Hm w).
  destruct (m w) as [[a|e] w']; cbn in *; [|done]. by rewrite Hf.
Qed.

Lemma console_try_except {A} (body : M A) (handler : exn -> M A) :
  console_stable body -> (forall e, console_stable (handler e)) ->
  console_stable (try_except body handler).
Proof.
  intros Hb Hh w. unfold try_except. specialize (Hb w).
  destruct (body w) as [[a|e] w']; cbn in *; [done|]. by rewrite Hh.
Qed.

Lemma console_getattr {A} (attr : instance -> option A) self :
  console_stable (getattr attr self).
Proof. intros w. unfold getattr. by destruct (heap w !! self ≫= attr). Qed.

Lemma console_send k r : console_stable (send k r).
Proof. intros w. unfold send. by destruct (network w (wire w) r). Qed.

Lemma console_raise_for_status r : console_stable (raise_for_status r).
Proof. intros w. unfold raise_for_status. by destruct (is_success r). Qed.

Lemma console_response_json `{!Runtime} r : console_stable (response_json r).
Proof. intros w. unfold response_json. by destruct (json_loads (text r)). Qed.

Lemma console_with_client {A} k (body : M A) :
  console_stable body -> console_stable (with_client k body).
Proof.
  intros Hb w. unfold with_client.
  specialize (Hb (log_event (Opened k) w)).
  by destruct (body (log_event (Opened k) w)) as [r w'].
Qed.

Lemma console_print line : console_stable (print line).
Proof. intros w. unfold print. by destruct (console w (stdout w) line). Qed.

Lemma console_os_getenv name fallback :
  console_stable (os_getenv name fallback).
Proof. done. Qed.

Lemma console_getitem v k : console_stable (getitem v k).
Proof.
  intros w. unfold getitem.
  destruct v as [| | | | s | l | d], k as [name|i]; try done.
  - by destruct (sequence_item (codepoints s) i).
  - by destruct (sequence_item l i).
  - by destruct (d !! name).
Qed.

Ltac console_call :=
  repeat match goal with
  | |- console_stable (with_client _ _) => apply console_with_client
  | |- console_stable (mbind _ _) => apply console_bind; [|intros ?]
  | |- console_stable (getattr _ _) => apply console_getattr
  | |- console_stable (send _ _) => apply console_send
  | |- console_stable (raise_for_status _) => apply console_raise_for_status
  | |- console_stable (response_json _) => apply console_response_json
  end.

Section DriverStream.
  Context `{!Runtime}.

Lemma async_chat_console self messages model temperature max_tokens stream :
  console_stable (python_httpx_client.chat_completion self messages model
                    temperature max_tokens stream).
Proof.
  unfold python_httpx_client.chat_completion, client_post. console_call.
Qed.

Lemma async_models_console self :
  console_stable (python_httpx_client.list_models self).
Proof. unfold python_httpx_client.list_models, client_get. console_call. Qed.

Lemma sync_chat_console self messages model temperature max_tokens :
  console_stable (python_sync_client.chat_completion self messages model
                    temperature max_tokens).
Proof.
  unfold python_sync_client.chat_completion, client_post. console_call.
Qed.

Lemma sync_models_console self :
  console_stable (python_sync_client.list_models self).
Proof. unfold python_sync_client.list_models, client_get. console_call. Qed.

Lemma async_new_console base token :
  console_stable (python_httpx_client.BedrockOpenAIClient base token).
Proof. intros w. by rewrite async_new_run. Qed.

Lemma sync_new_console base token :
  console_stable (python_sync_client.BedrockOpenAIClientSync base token).
Proof. intros w. by rewrite sync_new_run. Qed.

End DriverStream.

Ltac console_driver :=
  repeat match goal with
  | |- console_stable (mbind _ _) => apply console_bind; [|intros ?]
  | |- console_stable (try_except _ _) =>
      apply console_try_except; [|intros []; cbv beta iota]
  | |- console_stable (python_httpx_client.chat_completion _ _ _ _ _ _) =>
      apply async_chat_console
  | |- console_stable (python_httpx_client.list_models _) =>
      apply async_models_console
  | |- console_stable (python_sync_client.chat_completion _ _ _ _ _) =>
      apply sync_chat_console
  | |- console_stable (python_sync_client.list_models _) =>
      apply sync_models_console
  | |- console_stable (getitem _ _) => apply console_getitem
  | |- console_stable (print _) => apply console_print
  end.

Lemma calm_mret {A} (a : A) : calm (mret a).
Proof. intros w _. by exists a. Qed.

Lemma calm_print line : calm (print line).
Proof. intros w Hq. exists tt. unfold print. by rewrite Hq. Qed.

Lemma calm_os_getenv name fallback : calm (os_getenv name fallback).
Proof. intros w _. by eexists. Qed.

Lemma calm_bind {A B} (m : M A) (f : A -> M B) :
  calm m -> console_stable m -> (forall a, calm (f a)) -> calm (m ≫= f).
Proof.
  intros Hm Hc Hf w Hq. destruct (Hm w Hq) as [a Ha].
  specialize (Hc w). unfold mbind, M_bind.
  destruct (m w) as [[a'|e] w']; cbn in Ha, Hc; [|done].
  apply Hf. intros history line. rewrite Hc. apply Hq.
Qed.

(** A [try] whose handler ends normally ends normally, whatever its body
    raises. *)
Lemma calm_try_except {A} (body : M A) (handler : exn -> M A) :
  console_stable body -> (forall e, calm (handler e)) ->
  calm (try_except body handler).
Proof.
  intros Hc Hh w Hq. specialize (Hc w). unfold try_except.
  destruct (body w) as [[a|e] w']; cbn in Hc; [by exists a|].
  apply Hh. intros history line. rewrite Hc. apply Hq.
Qed.

Lemma calm_async_new `{!Runtime} base token :
  calm (python_httpx_client.BedrockOpenAIClient base token).
Proof. intros w _. rewrite async_new_run. by eexists. Qed.

Lemma calm_sync_new `{!Runtime} base token :
  calm (python_sync_client.BedrockOpenAIClientSync base token).
Proof. intros w _. rewrite sync_new_run. by eexists. Qed.

Ltac calm :=
  repeat match goal with
  | |- calm (mret _) => apply calm_mret
  | |- calm (print _) => apply calm_print
  | |- calm (os_getenv _ _) => apply calm_os_getenv
  | |- calm (python_httpx_client.BedrockOpenAIClient _ _) =>
      apply calm_async_new
  | |- calm (python_sync_client.BedrockOpenAIClientSync _ _) =>
      apply calm_sync_new
  | |- console_stable (os_getenv _ _) => apply console_os_getenv
  | |- console_stable (print _) => apply console_print
  | |- console_stable (python_httpx_client.BedrockOpenAIClient _ _) =>
      apply async_new_console
  | |- console_stable (python_sync_client.BedrockOpenAIClientSync _ _) =>
      apply sync_new_console
  | |- calm (mbind _ _) => apply calm_bind; [| |intros ?]
  | |- calm (try_except _ _) =>
      apply calm_try_except; [console_driver|intros []; cbv beta iota]
  end.

Section DriverEnds.
  Context `{!Runtime}.

Lemma async_main_only_print : print_failures_only python_httpx_client.main.
Proof.
  unfold python_httpx_client.main. only_print.
  destruct (String.eqb _ _); only_print.
Qed.

Lemma sync_main_only_print : print_failures_only python_sync_client.main.
Proof.
  unfold python_sync_client.main. only_print.
  destruct (String.eqb _ _); only_print.
Qed.

Lemma async_main_calm : calm python_httpx_client.main.
Proof.
  unfold python_httpx_client.main. calm.
  destruct (String.eqb _ _); calm.
Qed.

Lemma sync_main_calm : calm python_sync_client.main.
Proof.
  unfold python_sync_client.main. calm.
  destruct (String.eqb _ _); calm.
Qed.

End DriverEnds.



Lemma stable_try_except {A} (body : M A) (handler : exn -> M A) :
  heap_stable body -> (forall e, heap_stable (handler e)) ->
  heap_stable (try_except body handler).
Proof.
  intros Hb Hh w. unfold try_except. specialize (Hb w).
  destruct (body w) as [[a|e] w']; cbn in *; [done|]. by rewrite Hh.
Qed.

Lemma stable_getitem v k : heap_stable (getitem v k).
Proof.
  intros w. unfold getitem.
  destruct v as [| | | | s | l | d], k as [name|i]; try done.
  - by destruct (sequence_item (codepoints s) i).
  - by destruct (sequence_item l i).
  - by destruct (d !! name).
Qed.

Section DriverHeap.
  Context `{!Runtime}.

Ltac stable_driver :=
  repeat match goal with
  | |- heap_stable (mbind _ _) => apply stable_bind; [|intros ?]
  | |- heap_stable (try_except _ _) =>
      apply stable_try_except; [|intros []; cbv beta iota]
  | |- heap_stable (python_httpx_client.chat_completion _ _ _ _ _ _) =>
      apply async_chat_stable
  | |- heap_stable (python_httpx_client.list_models _) =>
      apply async_models_stable
  | |- heap_stable (python_sync_client.chat_completion _ _ _ _ _) =>
      apply sync_chat_stable
  | |- heap_stable (python_sync_client.list_models _) =>
      apply sync_models_stable
  | |- heap_stable (getitem _ _) => apply stable_getitem
  | |- heap_stable (print _) => apply stable_print
  end.

(** What a driver does once it holds a client assigns no attribute. *)
Lemma async_main_with_token w token :
  environ w !! "AWS_BEARER_TOKEN_BEDROCK" = Some token ->
  token <> placeholder_token ->
  exists rest : M unit,
    heap_stable rest
    /\ python_httpx_client.main w
       = rest (constructed (async_env_base_url w) token w).
Proof.
  intros Henv Hne. unfold python_httpx_client.main.
  rewrite !getenv_bind, Henv. unfold placeholder_token in Hne.
  change (default _ (Some token)) with token.
  rewrite (proj2 (String.eqb_neq token _) Hne).
  rewrite (bind_ok _ _ _ _ _ (async_new_run _ token w)).
  eexists. split; [|reflexivity]. cbv beta zeta. stable_driver.
Qed.

Lemma sync_main_with_token w token :
  environ w !! "AWS_BEARER_TOKEN_BEDROCK" = Some token ->
  token <> placeholder_token ->
  exists rest : M unit,
    heap_stable rest
    /\ python_sync_client.main w
       = rest (constructed (sync_env_base_url w) token w).
Proof.
  intros Henv Hne. unfold python_sync_client.main.
  rewrite !getenv_bind, Henv. unfold placeholder_token in Hne.
  change (default _ (Some token)) with token.
  rewrite (proj2 (String.eqb_neq token _) Hne).
  rewrite (bind_ok _ _ _ _ _ (sync_new_run _ token w)).
  eexists. split; [|reflexivity]. cbv beta zeta. stable_driver.
Qed.

End DriverHeap.

(** X7. Given a token other than the placeholder, a driver constructs
    exactly one client, whatever happens on the network afterwards: its base
    URL is [BEDROCK_OPENAI_BASE_URL] (or the driver's default when that is
    unset) without trailing slashes, its headers are built from the token.
    The defaults differ: the asynchronous driver's normalises to
    [https://openai.ez2.click], the synchronous driver's is
    [https://openai.ez2.click/dev]. *)
Theorem driver_constructs_one_client `{!Runtime} w token :
  environ w !! "AWS_BEARER_TOKEN_BEDROCK" = Some token ->
  token <> placeholder_token ->
  heap (python_httpx_client.main w).2
    = heap w ++ [Instance (Some (rstrip "/" (async_env_base_url w)))
                   (Some {[ "Content-Type" := "application/json";
                            "Authorization" := "Bearer " +:+ token ]})]
  /\ heap (python_sync_client.main w).2
    = heap w ++ [Instance (Some (rstrip "/" (sync_env_base_url w)))
                   (Some {[ "Content-Type" := "application/json";
                            "Authorization" := "Bearer " +:+ token ]})]
  /\ (environ w !! "BEDROCK_OPENAI_BASE_URL" = None ->
      rstrip "/" (async_env_base_url w) = "https://openai.ez2.click"
      /\ rstrip "/" (sync_env_base_url w) = "https://openai.ez2.click/dev").
Proof.
  intros Henv Hne.
  destruct (async_main_with_token w token Henv Hne) as (ra & Hra & ->).
  destruct (sync_main_with_token w token Henv Hne) as (rs & Hrs & ->).
  rewrite Hra, Hrs. split; [done|]. split; [done|].
  intros Hbase. unfold async_env_base_url, sync_env_base_url.
  by rewrite Hbase.
Qed.

Lemma driver_constructs_one_client_witness :
  heap (@python_httpx_client.main example_runtime
          (example_env_world "bedrock-api-key-abc" (Some "http://localhost:8000//")
             (Fails NetworkError))).2
  = [Instance (Some "http://localhost:8000")
       (Some {[ "Content-Type" := "application/json";
                "Authorization" := "Bearer bedrock-api-key-abc" ]})].
Proof.
  destruct (@driver_constructs_one_client example_runtime
              (example_env_world "bedrock-api-key-abc"
                 (Some "http://localhost:8000//") (Fails NetworkError))
              "bedrock-api-key-abc" eq_refl) as (Ha & _).
  - discriminate.
  - exact Ha.
Defined.

(** ** The drivers, step by step *)

Lemma try_except_run {A} (body : M A) (handler : exn -> M A) w :
  try_except body handler w
  = match body w with
    | (Ok a, w') => (Ok a, w')
    | (Raise e, w') => handler e w'
    end.
Proof. reflexivity. Qed.

(** The primitives on a world given by its fields. *)

Lemma getenv_W {B} name fallback (f : string -> M B) e o hp wi n c :
  (os_getenv name fallback ≫= f) (World e o hp wi n c)
  = f (default fallback (e !! name)) (World e o hp wi n c).
Proof. reflexivity. Qed.

Lemma print_W {B} line (f : unit -> M B) e o hp wi n c :
  c o line = None ->
  (print line ≫= f) (World e o hp wi n c)
  = f tt (World e (o ++ [line]) hp wi n c).
Proof. intros Hc. by rewrite print_bind. Qed.

Lemma print_last_W line e o hp wi n c :
  c o line = None ->
  print line (World e o hp wi n c) = (Ok tt, World e (o ++ [line]) hp wi n c).
Proof. intros Hc. by rewrite print_ok. Qed.

Lemma print_refused_W {B} line (f : unit -> M B) e o hp wi n c p :
  c o line = Some p ->
  (print line ≫= f) (World e o hp wi n c)
  = (Raise (print_exn p), World e o hp wi n c).
Proof. intros Hc. by rewrite (print_bind_refused _ _ p). Qed.

Lemma print_last_refused_W line e o hp wi n c p :
  c o line = Some p ->
  print line (World e o hp wi n c)
  = (Raise (print_exn p), World e o hp wi n c).
Proof. intros Hc. by rewrite (print_refused _ p). Qed.

Lemma exchanged_W k r e o hp wi n c :
  exchanged k r (World e o hp wi n c) = World e o hp (wi ++ exchange k r) n c.
Proof. unfold exchanged, log_event, exchange. cbn. by rewrite <- !app_assoc. Qed.

Lemma live_W b h e o hp wi n c :
  live (length hp) b h
    (World e o (hp ++ [Instance (Some b) (Some h)]) wi n c).
Proof. unfold live. cbn. by rewrite list_lookup_middle. Qed.

(** The lines after [history], one list or one by one. *)
Lemma snoc_lines (history : list string) line lines :
  (history ++ [line]) ++ lines = history ++ line :: lines.
Proof. by rewrite <- app_assoc. Qed.

Lemma example_accepted token base rp history lines :
  accepted (console (example_env_world token base rp)) history lines.
Proof. apply accepted_quiet. intros h l. reflexivity. Qed.

Section Answers.
  Context `{!Runtime}.

Lemma outcome_answers w history r v :
  answers w history r v -> outcome (network w history r) = Ok v.
Proof.
  intros (resp & -> & Hs & Hv). cbn. unfold is_success.
  replace ((200 <=? status_code resp) && (status_code resp <=? 299)) with true
    by (symmetry; apply andb_true_iff; lia).
  by rewrite Hv.
Qed.

Lemma outcome_ok w history r v :
  outcome (network w history r) = Ok v -> answers w history r v.
Proof.
  unfold outcome, answers. destruct (network w history r) as [resp|f]; [|done].
  unfold is_success.
  destruct (200 <=? status_code resp) eqn:Hlo; [|done].
  destruct (status_code resp <=? 299) eqn:Hhi; [|done]. cbn.
  destruct (json_loads (text resp)) as [v'|] eqn:Hv; [|done].
  intros [= <-]. exists resp. repeat split; [lia..|done].
Qed.

Lemma outcome_status resp :
  ~ (200 <= status_code resp <= 299) ->
  outcome (Responds resp) = Raise (HTTPStatusError resp).
Proof.
  intros Hs. cbn. unfold is_success.
  replace ((200 <=? status_code resp) && (status_code resp <=? 299)) with false;
    [done|].
  symmetry. apply andb_false_iff. lia.
Qed.

Lemma outcome_undecodable resp :
  200 <= status_code resp <= 299 ->
  json_loads (text resp) = None ->
  outcome (Responds resp) = Raise (JSONDecodeError (text resp)).
Proof.
  intros Hs Hbody. cbn. unfold is_success.
  replace ((200 <=? status_code resp) && (status_code resp <=? 299)) with true
    by (symmetry; apply andb_true_iff; lia).
  by rewrite Hbody.
Qed.

Lemma async_new_W base token e o hp wi n c :
  python_httpx_client.BedrockOpenAIClient base token (World e o hp wi n c)
  = (Ok (length hp),
     World e o (hp ++ [Instance (Some (rstrip "/" base))
                         (Some (stored_headers token))]) wi n c).
Proof. by rewrite async_new_run. Qed.

Lemma sync_new_W base token e o hp wi n c :
  python_sync_client.BedrockOpenAIClientSync base token (World e o hp wi n c)
  = (Ok (length hp),
     World e o (hp ++ [Instance (Some (rstrip "/" base))
                         (Some (stored_headers token))]) wi n c).
Proof. by rewrite sync_new_run. Qed.

Lemma async_models_W self b h e o hp wi n c :
  live self b h (World e o hp wi n c) ->
  python_httpx_client.list_models self (World e o hp wi n c)
  = (outcome (n (wi ++ [Opened AsyncClient]) (models_request b h)),
     World e o hp (wi ++ exchange AsyncClient (models_request b h)) n c).
Proof. intros Hl. by rewrite (async_models_run _ _ _ _ Hl), exchanged_W. Qed.

Lemma sync_models_W self b h e o hp wi n c :
  live self b h (World e o hp wi n c) ->
  python_sync_client.list_models self (World e o hp wi n c)
  = (outcome (n (wi ++ [Opened Client]) (models_request b h)),
     World e o hp (wi ++ exchange Client (models_request b h)) n c).
Proof. intros Hl. by rewrite (sync_models_run _ _ _ _ Hl), exchanged_W. Qed.

Lemma async_chat_W self b h e o hp wi n c messages model temperature
    max_tokens stream :
  live self b h (World e o hp wi n c) ->
  python_httpx_client.chat_completion self messages model temperature
    max_tokens stream (World e o hp wi n c)
  = (outcome (n (wi ++ [Opened AsyncClient])
                (async_chat_request b h messages model temperature max_tokens
                   stream)),
     World e o hp
       (wi ++ exchange AsyncClient
                (async_chat_request b h messages model temperature max_tokens
                   stream)) n c).
Proof.
  intros Hl.
  by rewrite (async_chat_run _ _ _ _ messages model temperature max_tokens
                stream Hl), exchanged_W.
Qed.

Lemma sync_chat_W self b h e o hp wi n c messages model temperature
    max_tokens :
  live self b h (World e o hp wi n c) ->
  python_sync_client.chat_completion self messages model temperature
    max_tokens (World e o hp wi n c)
  = (outcome (n (wi ++ [Opened Client])
                (sync_chat_request b h messages model temperature max_tokens)),
     World e o hp
       (wi ++ exchange Client
                (sync_chat_request b h messages model temperature max_tokens))
       n c).
Proof.
  intros Hl.
  by rewrite (sync_chat_run _ _ _ _ messages model temperature max_tokens Hl),
       exchanged_W.
Qed.

End Answers.

(** A driver with a token, on a world given by its fields: up to the
    construction of its client. *)
Ltac construct_W Henv Hne new_W :=
  unfold placeholder_token in Hne;
  rewrite !getenv_W, Henv; change (default _ (Some ?t)) with t;
  rewrite (proj2 (String.eqb_neq _ _) Hne);
  rewrite (bind_ok _ _ _ _ _ (new_W _ _ _ _ _ _ _ _));
  cbv beta.

(** A line the stream takes. *)
Ltac printed Hline := rewrite (print_W _ _ _ _ _ _ _ _ Hline).

Ltac printed_last Hline := rewrite (print_last_W _ _ _ _ _ _ _ Hline).

(** Up to the first request: the banner and the line announcing the
    listing. *)
Ltac enter_W Henv Hne new_W Hbanner Hlisting :=
  construct_W Henv Hne new_W;
  printed Hbanner; rewrite try_except_run; printed Hlisting.

(** The next call of a driver, answered with the outcome [H]. *)
Tactic Notation "answered" uconstr(call_W) ident(Hlive) ident(H) :=
  rewrite (bind_ok _ _ _ _ _
             (eq_trans (call_W (Hlive _ _)) (f_equal (fun x => (x, _)) H)));
  cbv beta zeta.

(** The next call of a driver, raising as the outcome [H] has it. *)
Tactic Notation "raised" uconstr(call_W) ident(Hlive) ident(H) :=
  rewrite (bind_raise _ _ _ _ _
             (eq_trans (call_W (Hlive _ _)) (f_equal (fun x => (x, _)) H)));
  cbv beta iota.

(** ** The drivers when the first request fails *)

Section FirstRequest.
  Context `{!Runtime}.

Lemma async_main_status_W e o hp wi n c token resp :
  e !! "AWS_BEARER_TOKEN_BEDROCK" = Some token ->
  token <> placeholder_token ->
  let b := rstrip "/" (default "https://openai.ez2.click/"
                         (e !! "BEDROCK_OPENAI_BASE_URL")) in
  let h := stored_headers token in
  let r1 := models_request b h in
  outcome (n (wi ++ [Opened AsyncClient]) r1) = Raise (HTTPStatusError resp) ->
  accepted c o ["🚀 Bedrock OpenAI Proxy Client Examples" +:+ LF;
                "📋 Listing available models...";
                "❌ HTTP Error: " +:+ py_str (JInt (status_code resp));
                "Response: " +:+ text resp] ->
  python_httpx_client.main (World e o hp wi n c)
  = (Ok tt,
     World e
       ((((o ++ ["🚀 Bedrock OpenAI Proxy Client Examples" +:+ LF])
           ++ ["📋 Listing available models..."])
           ++ ["❌ HTTP Error: " +:+ py_str (JInt (status_code resp))])
           ++ ["Response: " +:+ text resp])
       (hp ++ [Instance (Some b) (Some h)])
       (wi ++ exchange AsyncClient r1) n c).
Proof.
  intros Henv Hne b h r1 H1 (A1 & A2 & A3 & A4 & _).
  assert (Hlive : forall o' wi',
    live (length hp) b h
      (World e o' (hp ++ [Instance (Some b) (Some h)]) wi' n c))
    by (intros; apply live_W).
  unfold python_httpx_client.main.
  enter_W Henv Hne async_new_W A1 A2.
  raised (async_models_W _ b h _ _ _ _ _ _) Hlive H1.
  printed A3. by printed_last A4.
Qed.

Lemma sync_main_status_W e o hp wi n c token resp :
  e !! "AWS_BEARER_TOKEN_BEDROCK" = Some token ->
  token <> placeholder_token ->
  let b := rstrip "/" (default "https://openai.ez2.click/dev"
                         (e !! "BEDROCK_OPENAI_BASE_URL")) in
  let h := stored_headers token in
  let r1 := models_request b h in
  outcome (n (wi ++ [Opened Client]) r1) = Raise (HTTPStatusError resp) ->
  accepted c o ["🚀 Bedrock OpenAI Proxy Synchronous Client Example" +:+ LF;
                "📋 Listing available models...";
                "❌ HTTP Error: " +:+ py_str (JInt (status_code resp));
                "Response: " +:+ text resp] ->
  python_sync_client.main (World e o hp wi n c)
  = (Ok tt,
     World e
       ((((o ++ ["🚀 Bedrock OpenAI Proxy Synchronous Client Example" +:+ LF])
           ++ ["📋 Listing available models..."])
           ++ ["❌ HTTP Error: " +:+ py_str (JInt (status_code resp))])
           ++ ["Response: " +:+ text resp])
       (hp ++ [Instance (Some b) (Some h)])
       (wi ++ exchange Client r1) n c).
Proof.
  intros Henv Hne b h r1 H1 (A1 & A2 & A3 & A4 & _).
  assert (Hlive : forall o' wi',
    live (length hp) b h
      (World e o' (hp ++ [Instance (Some b) (Some h)]) wi' n c))
    by (intros; apply live_W).
  unfold python_sync_client.main.
  enter_W Henv Hne sync_new_W A1 A2.
  raised (sync_models_W _ b h _ _ _ _ _ _) Hlive H1.
  printed A3. by printed_last A4.
Qed.

Lemma async_main_failure_W e o hp wi n c token e' :
  e !! "AWS_BEARER_TOKEN_BEDROCK" = Some token ->
  token <> placeholder_token ->
  let b := rstrip "/" (default "https://openai.ez2.click/"
                         (e !! "BEDROCK_OPENAI_BASE_URL")) in
  let h := stored_headers token in
  let r1 := models_request b h in
  outcome (n (wi ++ [Opened AsyncClient]) r1) = Raise e' ->
  match e' with HTTPStatusError _ => False | _ => True end ->
  accepted c o ["🚀 Bedrock OpenAI Proxy Client Examples" +:+ LF;
                "📋 Listing available models...";
                "❌ Error: " +:+ exn_str e'] ->
  python_httpx_client.main (World e o hp wi n c)
  = (Ok tt,
     World e
       (((o ++ ["🚀 Bedrock OpenAI Proxy Client Examples" +:+ LF])
           ++ ["📋 Listing available models..."])
           ++ ["❌ Error: " +:+ exn_str e'])
       (hp ++ [Instance (Some b) (Some h)])
       (wi ++ exchange AsyncClient r1) n c).
Proof.
  intros Henv Hne b h r1 H1 He' (A1 & A2 & A3 & _).
  assert (Hlive : forall o' wi',
    live (length hp) b h
      (World e o' (hp ++ [Instance (Some b) (Some h)]) wi' n c))
    by (intros; apply live_W).
  unfold python_httpx_client.main.
  enter_W Henv Hne async_new_W A1 A2.
  raised (async_models_W _ b h _ _ _ _ _ _) Hlive H1.
  destruct e'; try done; cbv beta iota; by printed_last A3.
Qed.

Lemma sync_main_failure_W e o hp wi n c token e' :
  e !! "AWS_BEARER_TOKEN_BEDROCK" = Some token ->
  token <> placeholder_token ->
  let b := rstrip "/" (default "https://openai.ez2.click/dev"
                         (e !! "BEDROCK_OPENAI_BASE_URL")) in
  let h := stored_headers token in
  let r1 := models_request b h in
  outcome (n (wi ++ [Opened Client]) r1) = Raise e' ->
  match e' with HTTPStatusError _ => False | _ => True end ->
  accepted c o ["🚀 Bedrock OpenAI Proxy Synchronous Client Example" +:+ LF;
                "📋 Listing available models...";
                "❌ Error: " +:+ exn_str e'] ->
  python_sync_client.main (World e o hp wi n c)
  = (Ok tt,
     World e
       (((o ++ ["🚀 Bedrock OpenAI Proxy Synchronous Client Example" +:+ LF])
           ++ ["📋 Listing available models..."])
           ++ ["❌ Error: " +:+ exn_str e'])
       (hp ++ [Instance (Some b) (Some h)])
       (wi ++ exchange Client r1) n c).
Proof.
  intros Henv Hne b h r1 H1 He' (A1 & A2 & A3 & _).
  assert (Hlive : forall o' wi',
    live (length hp) b h
      (World e o' (hp ++ [Instance (Some b) (Some h)]) wi' n c))
    by (intros; apply live_W).
  unfold python_sync_client.main.
  enter_W Henv Hne sync_new_W A1 A2.
  raised (sync_models_W _ b h _ _ _ _ _ _) Hlive H1.
  destruct e'; try done; cbv beta iota; by printed_last A3.
Qed.

(** The outcome of a request the transport fails, or answers 2xx with a body
    that is not JSON. *)
Lemma outcome_failure rp e' :
  (exists f, rp = Fails f /\ e' = TransportError f)
  \/ (exists resp,
        rp = Responds resp
        /\ 200 <= status_code resp <= 299
        /\ json_loads (text resp) = None
        /\ e' = JSONDecodeError (text resp)) ->
  outcome rp = Raise e'
  /\ match e' with HTTPStatusError _ => False | _ => True end.
Proof.
  intros [(f & -> & ->)|(resp & -> & Hs & Hbody & ->)]; [done|].
  by rewrite (outcome_undecodable _ Hs Hbody).
Qed.

End FirstRequest.

(** X8. With a token, when the service answers the first request of a
    driver, [list_models], with a status code outside 200..299, and standard
    output takes the four lines below, the driver stops there: it has
    printed its banner, the line announcing the listing, the status code and
    the raw body of the answer; it has sent that one request and no other;
    and it returns normally. *)
Theorem driver_stops_at_http_error `{!Runtime} w token :
  environ w !! "AWS_BEARER_TOKEN_BEDROCK" = Some token ->
  token <> placeholder_token ->
  (forall resp,
     let lines := ["🚀 Bedrock OpenAI Proxy Client Examples" +:+ LF;
                   "📋 Listing available models...";
                   "❌ HTTP Error: " +:+ py_str (JInt (status_code resp));
                   "Response: " +:+ text resp] in
     network w (wire w ++ [Opened AsyncClient])
       (models_request (rstrip "/" (async_env_base_url w))
          (stored_headers token)) = Responds resp ->
     ~ (200 <= status_code resp <= 299) ->
     accepted (console w) (stdout w) lines ->
     (python_httpx_client.main w).1 = Ok tt
     /\ stdout (python_httpx_client.main w).2 = stdout w ++ lines
     /\ traffic python_httpx_client.main w
        = [Opened AsyncClient;
           Sent AsyncClient
             (models_request (rstrip "/" (async_env_base_url w))
                (stored_headers token));
           Closed AsyncClient])
  /\ (forall resp,
     let lines := ["🚀 Bedrock OpenAI Proxy Synchronous Client Example" +:+ LF;
                   "📋 Listing available models...";
                   "❌ HTTP Error: " +:+ py_str (JInt (status_code resp));
                   "Response: " +:+ text resp] in
     network w (wire w ++ [Opened Client])
       (models_request (rstrip "/" (sync_env_base_url w))
          (stored_headers token)) = Responds resp ->
     ~ (200 <= status_code resp <= 299) ->
     accepted (console w) (stdout w) lines ->
     (python_sync_client.main w).1 = Ok tt
     /\ stdout (python_sync_client.main w).2 = stdout w ++ lines
     /\ traffic python_sync_client.main w
        = [Opened Client;
           Sent Client
             (models_request (rstrip "/" (sync_env_base_url w))
                (stored_headers token));
           Closed Client]).
Proof.
  intros Henv Hne. destruct w as [e o hp wi n c].
  unfold async_env_base_url, sync_env_base_url, traffic.
  cbn [environ network wire console stdout] in *.
  split; intros resp Hnet Hs Hacc.
  - assert (Hout := outcome_status resp Hs). rewrite <- Hnet in Hout at 1.
    rewrite (async_main_status_W e o hp wi n c token resp Henv Hne Hout Hacc).
    cbn [fst snd stdout wire]. rewrite !snoc_lines.
    split; [done|]. split; [done|]. apply drop_app_length.
  - assert (Hout := outcome_status resp Hs). rewrite <- Hnet in Hout at 1.
    rewrite (sync_main_status_W e o hp wi n c token resp Henv Hne Hout Hacc).
    cbn [fst snd stdout wire]. rewrite !snoc_lines.
    split; [done|]. split; [done|]. apply drop_app_length.
Qed.

Lemma driver_stops_at_http_error_witness :
  stdout (@python_httpx_client.main example_runtime
            (example_env_world "bedrock-api-key-abc" None
               (Responds (Response 403 "forbidden")))).2
  = ["🚀 Bedrock OpenAI Proxy Client Examples" +:+ LF;
     "📋 Listing available models...";
     "❌ HTTP Error: " +:+ @py_str example_runtime (JInt 403);
     "Response: forbidden"]
  /\ requests (traffic (@python_sync_client.main example_runtime)
                 (example_env_world "bedrock-api-key-abc" None
                    (Responds (Response 403 "forbidden"))))
  = [models_request "https://openai.ez2.click/dev"
       (stored_headers "bedrock-api-key-abc")].
Proof.
  destruct (@driver_stops_at_http_error example_runtime
              (example_env_world "bedrock-api-key-abc" None
                 (Responds (Response 403 "forbidden")))
              "bedrock-api-key-abc" eq_refl) as (Ha & Hs).
  - discriminate.
  - destruct (Ha (Response 403 "forbidden") eq_refl) as (_ & Hout & _).
    + cbn. lia.
    + apply example_accepted.
    + destruct (Hs (Response 403 "forbidden") eq_refl) as (_ & _ & Htr).
      * cbn. lia.
      * apply example_accepted.
      * split; [exact Hout|]. rewrite Htr. reflexivity.
Defined.

(** X9. With a token, when the first request of a driver fails in the
    transport (no connection, a timeout), or is answered 2xx with a body that
    is not JSON, and standard output takes the three lines below, the driver
    stops there as well: after its banner and the line announcing the
    listing it prints one line with the text of the exception; it has sent
    that one request and no other; and it returns normally. *)
Theorem driver_stops_at_failure `{!Runtime} w token :
  environ w !! "AWS_BEARER_TOKEN_BEDROCK" = Some token ->
  token <> placeholder_token ->
  (forall e,
     let lines := ["🚀 Bedrock OpenAI Proxy Client Examples" +:+ LF;
                   "📋 Listing available models...";
                   "❌ Error: " +:+ exn_str e] in
     (exists f,
        network w (wire w ++ [Opened AsyncClient])
          (models_request (rstrip "/" (async_env_base_url w))
             (stored_headers token)) = Fails f
        /\ e = TransportError f)
     \/ (exists resp,
        network w (wire w ++ [Opened AsyncClient])
          (models_request (rstrip "/" (async_env_base_url w))
             (stored_headers token)) = Responds resp
        /\ 200 <= status_code resp <= 299
        /\ json_loads (text resp) = None
        /\ e = JSONDecodeError (text resp)) ->
     accepted (console w) (stdout w) lines ->
     (python_httpx_client.main w).1 = Ok tt
     /\ stdout (python_httpx_client.main w).2 = stdout w ++ lines
     /\ traffic python_httpx_client.main w
        = [Opened AsyncClient;
           Sent AsyncClient
             (models_request (rstrip "/" (async_env_base_url w))
                (stored_headers token));
           Closed AsyncClient])
  /\ (forall e,
     let lines := ["🚀 Bedrock OpenAI Proxy Synchronous Client Example" +:+ LF;
                   "📋 Listing available models...";
                   "❌ Error: " +:+ exn_str e] in
     (exists f,
        network w (wire w ++ [Opened Client])
          (models_request (rstrip "/" (sync_env_base_url w))
             (stored_headers token)) = Fails f
        /\ e = TransportError f)
     \/ (exists resp,
        network w (wire w ++ [Opened Client])
          (models_request (rstrip "/" (sync_env_base_url w))
             (stored_headers token)) = Responds resp
        /\ 200 <= status_code resp <= 299
        /\ json_loads (text resp) = None
        /\ e = JSONDecodeError (text resp)) ->
     accepted (console w) (stdout w) lines ->
     (python_sync_client.main w).1 = Ok tt
     /\ stdout (python_sync_client.main w).2 = stdout w ++ lines
     /\ traffic python_sync_client.main w
        = [Opened Client;
           Sent Client
             (models_request (rstrip "/" (sync_env_base_url w))
                (stored_headers token));
           Closed Client]).
Proof.
  intros Henv Hne. destruct w as [e o hp wi n c].
  unfold async_env_base_url, sync_env_base_url, traffic.
  cbn [environ network wire console stdout] in *.
  split; intros e' Hnet Hacc.
  - destruct (outcome_failure _ e' Hnet) as [Hout He'].
    rewrite (async_main_failure_W e o hp wi n c token e' Henv Hne Hout He'
               Hacc).
    cbn [fst snd stdout wire]. rewrite !snoc_lines.
    split; [done|]. split; [done|]. apply drop_app_length.
  - destruct (outcome_failure _ e' Hnet) as [Hout He'].
    rewrite (sync_main_failure_W e o hp wi n c token e' Henv Hne Hout He'
               Hacc).
    cbn [fst snd stdout wire]. rewrite !snoc_lines.
    split; [done|]. split; [done|]. apply drop_app_length.
Qed.

Lemma driver_stops_at_failure_witness :
  stdout (@python_httpx_client.main example_runtime
            (example_env_world "bedrock-api-key-abc" None
               (Fails TimeoutException))).2
  = ["🚀 Bedrock OpenAI Proxy Client Examples" +:+ LF;
     "📋 Listing available models...";
     "❌ Error: " +:+ @exn_str example_runtime (TransportError TimeoutException)]
  /\ stdout (@python_sync_client.main example_runtime
               (example_env_world "bedrock-api-key-abc" None
                  (Responds (Response 200 "<html>")))).2
  = ["🚀 Bedrock OpenAI Proxy Synchronous Client Example" +:+ LF;
     "📋 Listing available models...";
     "❌ Error: " +:+ @exn_str example_runtime (JSONDecodeError "<html>")].
Proof.
  destruct (@driver_stops_at_failure example_runtime
              (example_env_world "bedrock-api-key-abc" None
                 (Fails TimeoutException))
              "bedrock-api-key-abc" eq_refl) as (Ha & _); [discriminate|].
  destruct (@driver_stops_at_failure example_runtime
              (example_env_world "bedrock-api-key-abc" None
                 (Responds (Response 200 "<html>")))
              "bedrock-api-key-abc" eq_refl) as (_ & Hs); [discriminate|].
  split.
  - apply (Ha (TransportError TimeoutException)).
    + left. exists TimeoutException. by split.
    + apply example_accepted.
  - apply (Hs (JSONDecodeError "<html>")).
    + right. exists (Response 200 "<html>"). repeat split; cbn; lia.
    + apply example_accepted.
Defined.

(** ** What a driver sends *)

Lemma requests_app evs1 evs2 :
  requests (evs1 ++ evs2) = requests evs1 ++ requests evs2.
Proof. unfold requests. apply omap_app. Qed.

Lemma traffic_extends {A} (m : M A) w evs :
  wire (m w).2 = wire w ++ evs -> traffic m w = evs.
Proof. intros Hw. unfold traffic. rewrite Hw. apply drop_app_length. Qed.

Lemma track_silent {A} self b h k (m : M A) :
  (forall w, heap (m w).2 = heap w /\ wire (m w).2 = wire w) ->
  track self b h k 0 m.
Proof.
  intros Hm w Hself. destruct (Hm w) as [Hheap Hwire]. split.
  - unfold live. by rewrite Hheap.
  - exists []. rewrite app_nil_r. by repeat split.
Qed.

Lemma track_print self b h k line : track self b h k 0 (print line).
Proof.
  apply track_silent. intros w. unfold print.
  by destruct (console w (stdout w) line).
Qed.

Lemma track_mret {A} self b h k (a : A) : track self b h k 0 (mret a).
Proof. by apply track_silent. Qed.

Lemma track_getitem self b h k v s : track self b h k 0 (getitem v s).
Proof.
  apply track_silent. intros w. unfold getitem.
  destruct v as [| | | | str | l | d], s as [name|i]; try done.
  - by destruct (sequence_item (codepoints str) i).
  - by destruct (sequence_item l i).
  - by destruct (d !! name).
Qed.

Lemma track_weaken {A} self b h k n n' (m : M A) :
  (n <= n')%nat -> track self b h k n m -> track self b h k n' m.
Proof.
  intros Hn Hm w Hself. destruct (Hm w Hself) as (Hl & evs & Hw & Hall & Hlen).
  split; [done|]. exists evs. repeat split; [done..|lia].
Qed.

Lemma track_bind {A B} self b h k n1 n2 (m : M A) (f : A -> M B) :
  track self b h k n1 m -> (forall a, track self b h k n2 (f a)) ->
  track self b h k (n1 + n2) (m ≫= f).
Proof.
  intros Hm Hf w Hself. unfold mbind, M_bind.
  destruct (Hm w Hself) as (Hl & evs & Hw & Hall & Hlen).
  destruct (m w) as [[a|e] w']; cbn [snd] in *.
  - destruct (Hf a w' Hl) as (Hl' & evs' & Hw' & Hall' & Hlen').
    split; [done|]. exists (evs ++ evs'). split; [|split].
    + by rewrite Hw', Hw, app_assoc.
    + by apply Forall_app.
    + rewrite requests_app, List.length_app. lia.
  - split; [done|]. exists evs. repeat split; [done..|lia].
Qed.

Lemma track_try_except {A} self b h k n1 n2 (body : M A) (handler : exn -> M A) :
  track self b h k n1 body -> (forall e, track self b h k n2 (handler e)) ->
  track self b h k (n1 + n2) (try_except body handler).
Proof.
  intros Hm Hf w Hself. unfold try_except.
  destruct (Hm w Hself) as (Hl & evs & Hw & Hall & Hlen).
  destruct (body w) as [[a|e] w']; cbn [snd] in *.
  - split; [done|]. exists evs. repeat split; [done..|lia].
  - destruct (Hf e w' Hl) as (Hl' & evs' & Hw' & Hall' & Hlen').
    split; [done|]. exists (evs ++ evs'). split; [|split].
    + by rewrite Hw', Hw, app_assoc.
    + by apply Forall_app.
    + rewrite requests_app, List.length_app. lia.
Qed.

(** One exchange of a live client is tracked, with its one request. *)
Lemma track_exchange {A} self b h k r (m : M A) :
  endpoint_event k b h (Sent k r) ->
  (forall w, live self b h w -> (m w).2 = exchanged k r w) ->
  track self b h k 1 m.
Proof.
  intros Hr Hm w Hself. rewrite (Hm w Hself). split; [done|].
  exists [Opened k; Sent k r; Closed k]. split; [apply wire_exchanged|].
  split; [|done].
  constructor; [done|]. constructor; [exact Hr|]. constructor; [done|].
  constructor.
Qed.

(** A [try] that starts with an exchange of a live client: that exchange
    comes first on the wire, whatever follows it. *)
Lemma try_trace {A} self b h k n (call : M json) (rest : json -> M A)
    (handler : exn -> M A) r w :
  live self b h w ->
  (call w).2 = exchanged k r w ->
  (forall v, track self b h k n (rest v)) ->
  (forall e, track self b h k 0 (handler e)) ->
  exists evs,
    wire (try_except (call ≫= rest) handler w).2
    = wire w ++ exchange k r ++ evs
    /\ Forall (endpoint_event k b h) evs
    /\ (length (requests evs) <= n)%nat.
Proof.
  intros Hlive Hcall Hrest Hhandler.
  assert (Hlive4 : live self b h (exchanged k r w)) by exact Hlive.
  unfold try_except, mbind, M_bind.
  destruct (call w) as [[v|e] w4]; cbn [snd] in Hcall; subst w4.
  - destruct (Hrest v _ Hlive4) as (Hl5 & evs & Hw5 & Hall & Hlen).
    destruct (rest v (exchanged k r w)) as [[a|e] w5]; cbn [snd] in *.
    + exists evs. by rewrite Hw5, wire_exchanged, <- app_assoc.
    + destruct (Hhandler e w5 Hl5) as (_ & evs' & Hw6 & Hall' & Hlen').
      exists (evs ++ evs'). split; [|split].
      * by rewrite Hw6, Hw5, wire_exchanged, <- !app_assoc.
      * by apply Forall_app.
      * rewrite requests_app, List.length_app. lia.
  - destruct (Hhandler e _ Hlive4) as (_ & evs' & Hw6 & Hall' & Hlen').
    exists evs'. split; [|split; [done|lia]].
    by rewrite Hw6, wire_exchanged, <- !app_assoc.
Qed.

(** The line that opens a [try], when the stream takes it. *)
Lemma try_except_print {A} line (body : M A) (handler : exn -> M A)
    e o hp wi n c :
  c o line = None ->
  try_except (print line;; body) handler (World e o hp wi n c)
  = try_except body handler (World e (o ++ [line]) hp wi n c).
Proof. intros Hc. unfold try_except. by rewrite (print_W _ _ _ _ _ _ _ _ Hc). Qed.

Section Tracks.
  Context `{!Runtime}.

Lemma track_async_chat self b h messages model temperature max_tokens stream :
  track self b h AsyncClient 1
    (python_httpx_client.chat_completion self messages model temperature
       max_tokens stream).
Proof.
  apply (track_exchange _ _ _ _
           (async_chat_request b h messages model temperature max_tokens stream)).
  - split; [done|]. split; [done|]. right. by repeat split.
  - intros w Hself.
    by rewrite (async_chat_run _ _ _ _ messages model temperature max_tokens
                  stream Hself).
Qed.

Lemma track_sync_chat self b h messages model temperature max_tokens :
  track self b h Client 1
    (python_sync_client.chat_completion self messages model temperature
       max_tokens).
Proof.
  apply (track_exchange _ _ _ _
           (sync_chat_request b h messages model temperature max_tokens)).
  - split; [done|]. split; [done|]. right. by repeat split.
  - intros w Hself.
    by rewrite (sync_chat_run _ _ _ _ messages model temperature max_tokens
                  Hself).
Qed.

Lemma track_async_models self b h :
  track self b h AsyncClient 1 (python_httpx_client.list_models self).
Proof.
  apply (track_exchange _ _ _ _ (models_request b h)).
  - split; [done|]. split; [done|]. left. by repeat split.
  - intros w Hself. by rewrite (async_models_run _ _ _ _ Hself).
Qed.

Lemma track_sync_models self b h :
  track self b h Client 1 (python_sync_client.list_models self).
Proof.
  apply (track_exchange _ _ _ _ (models_request b h)).
  - split; [done|]. split; [done|]. left. by repeat split.
  - intros w Hself. by rewrite (sync_models_run _ _ _ _ Hself).
Qed.

End Tracks.

Ltac track :=
  repeat match goal with
  | |- track _ _ _ _ _ (mbind _ _) => eapply track_bind; [|intros ?]
  | |- track _ _ _ _ _ (try_except _ _) =>
      eapply track_try_except; [|intros []; cbv beta iota]
  | |- track _ _ _ _ _ (python_httpx_client.chat_completion _ _ _ _ _ _) =>
      apply track_async_chat
  | |- track _ _ _ _ _ (python_httpx_client.list_models _) =>
      apply track_async_models
  | |- track _ _ _ _ _ (python_sync_client.chat_completion _ _ _ _ _) =>
      apply track_sync_chat
  | |- track _ _ _ _ _ (python_sync_client.list_models _) =>
      apply track_sync_models
  | |- track _ _ _ _ _ (getitem _ _) => apply track_getitem
  | |- track _ _ _ _ _ (print _) => apply track_print
  end.

(** A computation tracked with a bound that the tactic finds. *)
Ltac track_within := eapply track_weaken; cycle 1; [track | cbn; lia].

(** What a driver does once it holds its client, as one computation. *)
Ltac driver_bound k n :=
  match goal with
  | |- exists evs, wire (?m (World ?e ?o (?hp ++ ?new) ?wi ?net ?c)).2 = _ /\ _ =>
      match goal with
      | b := _ : string, h := _ : gmap string string |- _ =>
          let Ht := fresh "Ht" in
          assert (Ht : track (length hp) b h k n m) by track_within;
          destruct (Ht (World e o (hp ++ new) wi net c) (live_W _ _ _ _ _ _ _ _))
            as (_ & evs & Hw & Hall & Hlen);
          by exists evs
      end
  end.

Section DriverTraces.
  Context `{!Runtime}.

(** Whatever the stream and the service do. *)
Lemma async_main_bound e o hp wi n c token :
  e !! "AWS_BEARER_TOKEN_BEDROCK" = Some token ->
  token <> placeholder_token ->
  let b := rstrip "/" (default "https://openai.ez2.click/"
                         (e !! "BEDROCK_OPENAI_BASE_URL")) in
  let h := stored_headers token in
  exists evs,
    wire (python_httpx_client.main (World e o hp wi n c)).2 = wi ++ evs
    /\ Forall (endpoint_event AsyncClient b h) evs
    /\ (length (requests evs) <= 4)%nat.
Proof.
  intros Henv Hne b h. unfold python_httpx_client.main.
  construct_W Henv Hne async_new_W. fold b h.
  driver_bound AsyncClient 4%nat.
Qed.

Lemma sync_main_bound e o hp wi n c token :
  e !! "AWS_BEARER_TOKEN_BEDROCK" = Some token ->
  token <> placeholder_token ->
  let b := rstrip "/" (default "https://openai.ez2.click/dev"
                         (e !! "BEDROCK_OPENAI_BASE_URL")) in
  let h := stored_headers token in
  exists evs,
    wire (python_sync_client.main (World e o hp wi n c)).2 = wi ++ evs
    /\ Forall (endpoint_event Client b h) evs
    /\ (length (requests evs) <= 3)%nat.
Proof.
  intros Henv Hne b h. unfold python_sync_client.main.
  construct_W Henv Hne sync_new_W. fold b h.
  driver_bound Client 3%nat.
Qed.

(** When the stream takes the banner and the line announcing the listing. *)
Lemma async_main_trace e o hp wi n c token :
  e !! "AWS_BEARER_TOKEN_BEDROCK" = Some token ->
  token <> placeholder_token ->
  let b := rstrip "/" (default "https://openai.ez2.click/"
                         (e !! "BEDROCK_OPENAI_BASE_URL")) in
  let h := stored_headers token in
  accepted c o ["🚀 Bedrock OpenAI Proxy Client Examples" +:+ LF;
                "📋 Listing available models..."] ->
  exists evs,
    wire (python_httpx_client.main (World e o hp wi n c)).2
    = wi ++ exchange AsyncClient (models_request b h) ++ evs
    /\ Forall (endpoint_event AsyncClient b h) evs
    /\ (length (requests evs) <= 3)%nat.
Proof.
  intros Henv Hne b h (A1 & A2 & _). unfold python_httpx_client.main.
  construct_W Henv Hne async_new_W. fold b h.
  printed A1. rewrite (try_except_print _ _ _ _ _ _ _ _ _ A2).
  eapply (try_trace (length hp) b h AsyncClient 3).
  - apply live_W.
  - by rewrite (async_models_run _ b h) by apply live_W.
  - intros v. cbv beta zeta. track_within.
  - intros []; cbv beta iota; track_within.
Qed.

Lemma sync_main_trace e o hp wi n c token :
  e !! "AWS_BEARER_TOKEN_BEDROCK" = Some token ->
  token <> placeholder_token ->
  let b := rstrip "/" (default "https://openai.ez2.click/dev"
                         (e !! "BEDROCK_OPENAI_BASE_URL")) in
  let h := stored_headers token in
  accepted c o ["🚀 Bedrock OpenAI Proxy Synchronous Client Example" +:+ LF;
                "📋 Listing available models..."] ->
  exists evs,
    wire (python_sync_client.main (World e o hp wi n c)).2
    = wi ++ exchange Client (models_request b h) ++ evs
    /\ Forall (endpoint_event Client b h) evs
    /\ (length (requests evs) <= 2)%nat.
Proof.
  intros Henv Hne b h (A1 & A2 & _). unfold python_sync_client.main.
  construct_W Henv Hne sync_new_W. fold b h.
  printed A1. rewrite (try_except_print _ _ _ _ _ _ _ _ _ A2).
  eapply (try_trace (length hp) b h Client 2).
  - apply live_W.
  - by rewrite (sync_models_run _ b h) by apply live_W.
  - intros v. cbv beta zeta. track_within.
  - intros []; cbv beta iota; track_within.
Qed.

(** When the stream refuses the banner: the banner is printed before the
    [try]. *)
Lemma async_main_banner_refused e o hp wi n c token p :
  e !! "AWS_BEARER_TOKEN_BEDROCK" = Some token ->
  token <> placeholder_token ->
  c o ("🚀 Bedrock OpenAI Proxy Client Examples" +:+ LF) = Some p ->
  exists hp',
    python_httpx_client.main (World e o hp wi n c)
    = (Raise (print_exn p), World e o hp' wi n c).
Proof.
  intros Henv Hne Hb. unfold python_httpx_client.main.
  construct_W Henv Hne async_new_W.
  rewrite (print_refused_W _ _ _ _ _ _ _ _ _ Hb). by eexists.
Qed.

Lemma sync_main_banner_refused e o hp wi n c token p :
  e !! "AWS_BEARER_TOKEN_BEDROCK" = Some token ->
  token <> placeholder_token ->
  c o ("🚀 Bedrock OpenAI Proxy Synchronous Client Example" +:+ LF) = Some p ->
  exists hp',
    python_sync_client.main (World e o hp wi n c)
    = (Raise (print_exn p), World e o hp' wi n c).
Proof.
  intros Henv Hne Hb. unfold python_sync_client.main.
  construct_W Henv Hne sync_new_W.
  rewrite (print_refused_W _ _ _ _ _ _ _ _ _ Hb). by eexists.
Qed.

End DriverTraces.

(** X10. With a token, everything a driver sends goes to the two endpoints
    of the base URL it read from the environment, [/v1/models] by GET and
    [/v1/chat/completions] by POST, and carries the headers built from its
    token; the asynchronous driver sends at most four requests and the
    synchronous driver at most three, whatever the answers and whatever
    standard output does. When standard output takes the banner and the line
    announcing the listing, the first exchange is the listing of the models.
    When it refuses the banner, which is printed before the [try], the
    driver sends nothing and the exception of that [print] leaves [main]. *)
Theorem driver_traffic `{!Runtime} w token :
  environ w !! "AWS_BEARER_TOKEN_BEDROCK" = Some token ->
  token <> placeholder_token ->
  (let b := rstrip "/" (async_env_base_url w) in
   let h := stored_headers token in
   let banner := "🚀 Bedrock OpenAI Proxy Client Examples" +:+ LF in
   let sent := traffic python_httpx_client.main w in
   wire (python_httpx_client.main w).2 = wire w ++ sent
   /\ Forall (endpoint_event AsyncClient b h) sent
   /\ (length (requests sent) <= 4)%nat
   /\ (accepted (console w) (stdout w)
         [banner; "📋 Listing available models..."] ->
       exists rest,
         sent = exchange AsyncClient (models_request b h) ++ rest)
   /\ (forall p, console w (stdout w) banner = Some p ->
       sent = [] /\ (python_httpx_client.main w).1 = Raise (print_exn p)))
  /\ (let b := rstrip "/" (sync_env_base_url w) in
   let h := stored_headers token in
   let banner := "🚀 Bedrock OpenAI Proxy Synchronous Client Example" +:+ LF in
   let sent := traffic python_sync_client.main w in
   wire (python_sync_client.main w).2 = wire w ++ sent
   /\ Forall (endpoint_event Client b h) sent
   /\ (length (requests sent) <= 3)%nat
   /\ (accepted (console w) (stdout w)
         [banner; "📋 Listing available models..."] ->
       exists rest,
         sent = exchange Client (models_request b h) ++ rest)
   /\ (forall p, console w (stdout w) banner = Some p ->
       sent = [] /\ (python_sync_client.main w).1 = Raise (print_exn p))).
Proof.
  intros Henv Hne. destruct w as [e o hp wi n c].
  unfold async_env_base_url, sync_env_base_url.
  cbn [environ network wire console stdout] in *.
  split.
  - destruct (async_main_bound e o hp wi n c token Henv Hne)
      as (evs & Hw & Hall & Hlen).
    rewrite (traffic_extends python_httpx_client.main
               (World e o hp wi n c) evs Hw).
    split; [exact Hw|]. split; [exact Hall|].
    split; [exact Hlen|]. split.
    + intros Hacc.
      destruct (async_main_trace e o hp wi n c token Henv Hne Hacc)
        as (rest & Hw' & _).
      exists rest. rewrite Hw' in Hw. by apply app_inv_head in Hw.
    + intros p Hb.
      destruct (async_main_banner_refused e o hp wi n c token p Henv Hne Hb)
        as (hp' & Hrun).
      rewrite Hrun in Hw |- *. cbn [fst snd wire] in Hw |- *.
      split; [|done]. rewrite <- (app_nil_r wi) in Hw at 1.
      by apply app_inv_head in Hw.
  - destruct (sync_main_bound e o hp wi n c token Henv Hne)
      as (evs & Hw & Hall & Hlen).
    rewrite (traffic_extends python_sync_client.main
               (World e o hp wi n c) evs Hw).
    split; [exact Hw|]. split; [exact Hall|].
    split; [exact Hlen|]. split.
    + intros Hacc.
      destruct (sync_main_trace e o hp wi n c token Henv Hne Hacc)
        as (rest & Hw' & _).
      exists rest. rewrite Hw' in Hw. by apply app_inv_head in Hw.
    + intros p Hb.
      destruct (sync_main_banner_refused e o hp wi n c token p Henv Hne Hb)
        as (hp' & Hrun).
      rewrite Hrun in Hw |- *. cbn [fst snd wire] in Hw |- *.
      split; [|done]. rewrite <- (app_nil_r wi) in Hw at 1.
      by apply app_inv_head in Hw.
Qed.

Lemma driver_traffic_witness :
  (exists rest,
     traffic (@python_sync_client.main example_runtime)
       (example_env_world "bedrock-api-key-abc" (Some "http://localhost/")
          (Responds (Response 200 "{}")))
     = exchange Client (models_request "http://localhost"
                          (stored_headers "bedrock-api-key-abc")) ++ rest)
  /\ traffic (@python_httpx_client.main example_runtime)
       (ascii_env_world "bedrock-api-key-abc") = []
  /\ (@python_httpx_client.main example_runtime
        (ascii_env_world "bedrock-api-key-abc")).1 = Raise UnicodeEncodeError.
Proof.
  destruct (@driver_traffic example_runtime
              (example_env_world "bedrock-api-key-abc" (Some "http://localhost/")
                 (Responds (Response 200 "{}")))
              "bedrock-api-key-abc" eq_refl) as (_ & Hs); [discriminate|].
  destruct (@driver_traffic example_runtime
              (ascii_env_world "bedrock-api-key-abc")
              "bedrock-api-key-abc" eq_refl) as (Ha & _); [discriminate|].
  destruct Hs as (_ & _ & _ & Hfirst & _).
  destruct Ha as (_ & _ & _ & _ & Hrefused).
  split; [apply Hfirst, example_accepted|].
  exact (Hrefused CannotEncode eq_refl).
Defined.



(** ** Trailing slashes of the base URL *)

Lemma rstrip_run_of_slashes n : rstrip "/" (replicate_char n "/") = "".
Proof. induction n as [|n IH]; [done|]. cbn [replicate_char rstrip]. by rewrite IH. Qed.

Lemma rstrip_app_slashes s n :
  rstrip "/" (s +:+ replicate_char n "/") = rstrip "/" s.
Proof.
  induction s as [|c s IH].
  - change ("" +:+ replicate_char n "/") with (replicate_char n "/").
    apply rstrip_run_of_slashes.
  - rewrite app_cons. cbn [rstrip]. by rewrite IH.
Qed.

Lemma rstrip_idempotent s : rstrip "/" (rstrip "/" s) = rstrip "/" s.
Proof.
  destruct (rstrip_slashes s) as [n Hn].
  rewrite Hn at 2. by rewrite rstrip_app_slashes.
Qed.

(** X12. Trailing slashes of the base URL make no difference: a client
    constructed from the base URL with any number of slashes appended, or
    from the already normalised base URL, is configured exactly like the
    client constructed from the base URL itself. In both clients. *)
Theorem trailing_slashes_insignificant `{!Runtime} base n token w :
  python_httpx_client.BedrockOpenAIClient (base +:+ replicate_char n "/") token w
    = python_httpx_client.BedrockOpenAIClient base token w
  /\ python_httpx_client.BedrockOpenAIClient (rstrip "/" base) token w
    = python_httpx_client.BedrockOpenAIClient base token w
  /\ python_sync_client.BedrockOpenAIClientSync (base +:+ replicate_char n "/")
       token w
    = python_sync_client.BedrockOpenAIClientSync base token w
  /\ python_sync_client.BedrockOpenAIClientSync (rstrip "/" base) token w
    = python_sync_client.BedrockOpenAIClientSync base token w.
Proof.
  rewrite !async_new_run, ?sync_new_run.
  by rewrite rstrip_app_slashes, rstrip_idempotent.
Qed.

(** ** The drivers when the service answers *)

Lemma sequence_item_first {A} (x : A) l : sequence_item (x :: l) 0 = Some x.
Proof.
  unfold sequence_item. cbn [length Z.ltb Z.compare].
  replace (Z.of_nat (S (length l)) <=? 0) with false; [done|].
  symmetry. apply Z.leb_gt. lia.
Qed.

Lemma sequence_item_0_inv {A} (l : list A) x :
  sequence_item l 0 = Some x -> exists others, l = x :: others.
Proof.
  destruct l as [|y l]; [done|].
  rewrite sequence_item_first. intros [= ->]. by eexists.
Qed.

(** A subscript does not touch the world, and raises subscript errors only. *)
Lemma getitem_pure v k :
  exists r,
    match r with Ok _ => True | Raise e => subscript_error e end
    /\ forall w, getitem v k w = (r, w).
Proof.
  assert (Hraise : forall e, subscript_error e ->
    exists r, match r with Ok _ => True | Raise e => subscript_error e end
              /\ forall w, @raise json e w = (r, w))
    by (intros e He; by exists (Raise e)).
  assert (Hret : forall x,
    exists r, match r with Ok _ => True | Raise e => subscript_error e end
              /\ forall w, (mret x : M json) w = (r, w))
    by (intros x; by exists (Ok x)).
  unfold getitem.
  destruct v as [| | | | s | l | d], k as [name|i];
    try (by apply Hraise).
  - destruct (sequence_item (codepoints s) i); [apply Hret|by apply Hraise].
  - destruct (sequence_item l i); [apply Hret|by apply Hraise].
  - destruct (d !! name); [apply Hret|by apply Hraise].
Qed.

Lemma getitem_key_ok v name x w w' :
  getitem v (Key name) w = (Ok x, w') ->
  exists d, v = JDict d /\ d !! name = Some x.
Proof.
  unfold getitem. destruct v as [| | | | s | l | d]; try done.
  destruct (d !! name) as [y|] eqn:Hd; [|done].
  intros [= <- _]. by exists d.
Qed.

(** Reading the content of a completion of the expected shape. *)
Lemma content_chain {B} v c (f : json -> M B) w :
  has_content v c ->
  (choices ← getitem v (Key "choices");
   choice ← getitem choices (Index 0);
   message ← getitem choice (Key "message");
   content ← getitem message (Key "content");
   f content) w = f c w.
Proof.
  intros (d & dc & dm & others & -> & Hd & Hdc & Hdm).
  unfold mbind, M_bind, getitem.
  rewrite Hd. cbn [mret M_ret]. rewrite sequence_item_first. cbn [mret M_ret].
  rewrite Hdc. cbn [mret M_ret]. by rewrite Hdm.
Qed.

Lemma usage_item {B} v u (f : json -> M B) w :
  has_usage v u -> (getitem v (Key "usage") ≫= f) w = f u w.
Proof.
  intros (d & -> & Hd). unfold mbind, M_bind, getitem. by rewrite Hd.
Qed.

(** Reading the content of any value: it has the expected shape, or the
    reading raises a subscript error and leaves the world alone. *)
Lemma content_chain_cases v :
  (exists c, has_content v c)
  \/ (exists e, subscript_error e
       /\ forall B (f : json -> M B) w,
       (choices ← getitem v (Key "choices");
        choice ← getitem choices (Index 0);
        message ← getitem choice (Key "message");
        content ← getitem message (Key "content");
        f content) w = (Raise e, w)).
Proof.
  unfold mbind, M_bind.
  destruct (getitem_pure v (Key "choices")) as ([choices|e] & He & H1);
    [|right; exists e; split; [done|]; intros; by rewrite H1].
  destruct (getitem_pure choices (Index 0)) as ([choice|e] & He2 & H2);
    [|right; exists e; split; [done|]; intros; by rewrite H1, H2].
  destruct (getitem_pure choice (Key "message")) as ([message|e] & He3 & H3);
    [|right; exists e; split; [done|]; intros; by rewrite H1, H2, H3].
  destruct (getitem_pure message (Key "content")) as ([content|e] & He4 & H4);
    [|right; exists e; split; [done|]; intros; by rewrite H1, H2, H3, H4].
  left. exists content.
  pose proof (H1 ascii_world) as H1'. pose proof (H2 ascii_world) as H2'.
  pose proof (H3 ascii_world) as H3'. pose proof (H4 ascii_world) as H4'.
  apply getitem_key_ok in H1' as (d & -> & Hd).
  apply getitem_key_ok in H3' as (dc & -> & Hdc).
  apply getitem_key_ok in H4' as (dm & -> & Hdm).
  unfold getitem in H2'. destruct choices as [| | | | s | l | d']; try done.
  - by destruct (sequence_item (codepoints s) 0).
  - destruct (sequence_item l 0) as [x|] eqn:Hl; [|done].
    injection H2' as ->. apply sequence_item_0_inv in Hl as [others ->].
    by exists d, dc, dm, others.
Qed.

(** The lines printed one by one after [o] are the lines after [o]: the
    equation [Hleft]. *)
Ltac lines_so_far Hlast lines :=
  match type of Hlast with
  | _ ?before ?line = None =>
      assert (Hleft : before ++ [line] = lines)
        by (rewrite !snoc_lines; reflexivity)
  end.

Section SyncAnswered.
  Context `{!Runtime}.

Lemma sync_main_W e o hp wi n c token models v2 c2 u2 v3 c3 :
  e !! "AWS_BEARER_TOKEN_BEDROCK" = Some token ->
  token <> placeholder_token ->
  let b := rstrip "/" (default "https://openai.ez2.click/dev"
                         (e !! "BEDROCK_OPENAI_BASE_URL")) in
  let h := stored_headers token in
  let r1 := models_request b h in
  let r2 := sync_chat_request b h sync_main_messages "gpt-3.5-turbo" 0.7 200 in
  let r3 := sync_chat_request b h sync_main_conversation "gpt-4" 0.5 300 in
  let lines :=
    ["🚀 Bedrock OpenAI Proxy Synchronous Client Example" +:+ LF;
     "📋 Listing available models...";
     "Available models: " +:+ json_dumps_indent2 models +:+ LF;
     "💬 Simple chat completion...";
     "Response: " +:+ py_str c2 +:+ LF;
     "Usage: " +:+ py_str u2 +:+ LF;
     "🗣️  Multi-turn conversation...";
     "Response: " +:+ py_str c3 +:+ LF] in
  outcome (n (wi ++ [Opened Client]) r1) = Ok models ->
  outcome (n ((wi ++ exchange Client r1) ++ [Opened Client]) r2) = Ok v2 ->
  has_content v2 c2 ->
  has_usage v2 u2 ->
  outcome (n (((wi ++ exchange Client r1) ++ exchange Client r2)
                ++ [Opened Client]) r3) = Ok v3 ->
  has_content v3 c3 ->
  accepted c o lines ->
  python_sync_client.main (World e o hp wi n c)
  = (Ok tt,
     World e (o ++ lines) (hp ++ [Instance (Some b) (Some h)])
       (wi ++ exchange Client r1 ++ exchange Client r2 ++ exchange Client r3)
       n c).
Proof.
  intros Henv Hne b h r1 r2 r3 lines H1 H2 Hc2 Hu2 H3 Hc3
    (A1 & A2 & A3 & A4 & A5 & A6 & A7 & A8 & _).
  assert (Hlive : forall o' wi',
    live (length hp) b h
      (World e o' (hp ++ [Instance (Some b) (Some h)]) wi' n c))
    by (intros; apply live_W).
  lines_so_far A8 (o ++ lines).
  unfold python_sync_client.main.
  enter_W Henv Hne sync_new_W A1 A2.
  answered (sync_models_W _ b h _ _ _ _ _ _) Hlive H1. printed A3. printed A4.
  answered (sync_chat_W _ b h _ _ _ _ _ _ _ _ _ _) Hlive H2.
  rewrite (content_chain _ _ _ _ Hc2). printed A5.
  rewrite (usage_item _ _ _ _ Hu2). printed A6. printed A7.
  answered (sync_chat_W _ b h _ _ _ _ _ _ _ _ _ _) Hlive H3.
  rewrite (content_chain _ _ _ _ Hc3). printed_last A8.
  by rewrite Hleft, <- !app_assoc.
Qed.

(** A first completion without the expected shape. *)
Lemma sync_main_shape_W e o hp wi n c token models v2 :
  e !! "AWS_BEARER_TOKEN_BEDROCK" = Some token ->
  token <> placeholder_token ->
  let b := rstrip "/" (default "https://openai.ez2.click/dev"
                         (e !! "BEDROCK_OPENAI_BASE_URL")) in
  let h := stored_headers token in
  let r1 := models_request b h in
  let r2 := sync_chat_request b h sync_main_messages "gpt-3.5-turbo" 0.7 200 in
  let lines :=
    ["🚀 Bedrock OpenAI Proxy Synchronous Client Example" +:+ LF;
     "📋 Listing available models...";
     "Available models: " +:+ json_dumps_indent2 models +:+ LF;
     "💬 Simple chat completion..."] in
  outcome (n (wi ++ [Opened Client]) r1) = Ok models ->
  outcome (n ((wi ++ exchange Client r1) ++ [Opened Client]) r2) = Ok v2 ->
  (forall c, ~ has_content v2 c) ->
  accepted c o lines ->
  exists e', subscript_error e'
    /\ (c (o ++ lines) ("❌ Error: " +:+ exn_str e') = None ->
        python_sync_client.main (World e o hp wi n c)
        = (Ok tt,
           World e (o ++ lines ++ ["❌ Error: " +:+ exn_str e'])
             (hp ++ [Instance (Some b) (Some h)])
             (wi ++ exchange Client r1 ++ exchange Client r2) n c)).
Proof.
  intros Henv Hne b h r1 r2 lines H1 H2 Hshape (A1 & A2 & A3 & A4 & _).
  assert (Hlive : forall o' wi',
    live (length hp) b h
      (World e o' (hp ++ [Instance (Some b) (Some h)]) wi' n c))
    by (intros; apply live_W).
  lines_so_far A4 (o ++ lines).
  destruct (content_chain_cases v2) as [[c0 Hc]|(e' & Hse & He)];
    [by destruct (Hshape c0)|].
  exists e'. split; [done|]. rewrite <- Hleft. intros A5.
  unfold python_sync_client.main.
  enter_W Henv Hne sync_new_W A1 A2.
  answered (sync_models_W _ b h _ _ _ _ _ _) Hlive H1. printed A3. printed A4.
  answered (sync_chat_W _ b h _ _ _ _ _ _ _ _ _ _) Hlive H2.
  rewrite He.
  destruct e'; try done; cbv beta iota; printed_last A5;
    by rewrite <- !app_assoc.
Qed.

End SyncAnswered.

Section AsyncAnswered.
  Context `{!Runtime}.
  Variables (e : gmap string string) (o : list string) (hp : list instance).
  Variables (wi : list event) (n : list event -> request -> reply).
  Variables (c : list string -> string -> option print_failure).
  Variables (token : string) (models v2 c2 u2 v3 c3 : json).
  Hypothesis Henv : e !! "AWS_BEARER_TOKEN_BEDROCK" = Some token.
  Hypothesis Hne : token <> placeholder_token.

Local Abbreviation b :=
  (rstrip "/" (default "https://openai.ez2.click/"
                 (e !! "BEDROCK_OPENAI_BASE_URL"))).

Local Abbreviation h := (stored_headers token).

Local Abbreviation r1 := (models_request b h).

Local Abbreviation r2 :=
  (async_chat_request b h async_main_messages "gpt-3.5-turbo" 0.7 500 false).

Local Abbreviation r3 :=
  (async_chat_request b h async_main_messages_with_system "gpt-4" 0.5 300
     false).

Local Abbreviation r4 :=
  (async_chat_request b h async_main_vision_messages "claude-3-sonnet" 0.5 300
     false).

(** The lines of the asynchronous driver up to its vision example. *)
Local Abbreviation lines :=
  ["🚀 Bedrock OpenAI Proxy Client Examples" +:+ LF;
   "📋 Listing available models...";
   "Available models: " +:+ json_dumps_indent2 models +:+ LF;
   "💬 OpenAI-compatible chat completion...";
   "Response: " +:+ py_str c2 +:+ LF;
   "Usage: " +:+ py_str u2 +:+ LF;
   "🎭 Chat with system message...";
   "Response: " +:+ py_str c3 +:+ LF;
   "👁️  Vision model example..."].

(** The line of the inner handler. *)
Local Abbreviation fallback e' :=
  ("Vision model not available or error: " +:+ exn_str e' +:+ LF).

(** The driver has ended normally after the four exchanges, with [last] as
    its last line. *)
Local Abbreviation finished last :=
  (Ok tt,
   World e (o ++ lines ++ [last]) (hp ++ [Instance (Some b) (Some h)])
     (wi ++ exchange AsyncClient r1 ++ exchange AsyncClient r2
         ++ exchange AsyncClient r3 ++ exchange AsyncClient r4) n c).

  Hypothesis H1 : outcome (n (wi ++ [Opened AsyncClient]) r1) = Ok models.
  Hypothesis H2 :
    outcome (n ((wi ++ exchange AsyncClient r1) ++ [Opened AsyncClient]) r2)
    = Ok v2.
  Hypothesis Hc2 : has_content v2 c2.
  Hypothesis Hu2 : has_usage v2 u2.
  Hypothesis H3 :
    outcome (n (((wi ++ exchange AsyncClient r1) ++ exchange AsyncClient r2)
                  ++ [Opened AsyncClient]) r3) = Ok v3.
  Hypothesis Hc3 : has_content v3 c3.
  Hypothesis Hlines : accepted c o lines.

(** Up to the [try] of the vision example. *)
Ltac vision_example :=
  let Hacc := fresh "Hacc" in
  pose proof Hlines as Hacc;
  destruct Hacc as (A1 & A2 & A3 & A4 & A5 & A6 & A7 & A8 & A9 & _);
  pose proof Hne as Hreal;
  assert (Hlive : forall o' wi',
    live (length hp) b h
      (World e o' (hp ++ [Instance (Some b) (Some h)]) wi' n c))
    by (intros; apply live_W);
  lines_so_far A9 (o ++ lines);
  unfold python_httpx_client.main;
  enter_W Henv Hreal async_new_W A1 A2;
  answered (async_models_W _ b h _ _ _ _ _ _) Hlive H1;
  printed A3; printed A4;
  answered (async_chat_W _ b h _ _ _ _ _ _ _ _ _ _ _) Hlive H2;
  rewrite (content_chain _ _ _ _ Hc2); printed A5;
  rewrite (usage_item _ _ _ _ Hu2); printed A6; printed A7;
  answered (async_chat_W _ b h _ _ _ _ _ _ _ _ _ _ _) Hlive H3;
  rewrite (content_chain _ _ _ _ Hc3); printed A8; printed A9;
  rewrite try_except_run.

(** The end of the driver, reached. *)
Ltac finish Hleft :=
  cbv beta iota; rewrite Hleft, <- !app_assoc; reflexivity.

(** The vision completion arrives in the expected shape and the stream
    takes its line. *)
Lemma async_main_vision_W v4 c4 :
  outcome (n ((((wi ++ exchange AsyncClient r1) ++ exchange AsyncClient r2)
                 ++ exchange AsyncClient r3) ++ [Opened AsyncClient]) r4)
    = Ok v4 ->
  has_content v4 c4 ->
  c (o ++ lines) ("Vision Response: " +:+ py_str c4 +:+ LF) = None ->
  python_httpx_client.main (World e o hp wi n c)
  = finished ("Vision Response: " +:+ py_str c4 +:+ LF).
Proof using All.
  intros H4 Hc4 Hline. vision_example. rewrite <- Hleft in Hline.
  answered (async_chat_W _ b h _ _ _ _ _ _ _ _ _ _ _) Hlive H4.
  rewrite (content_chain _ _ _ _ Hc4). printed_last Hline.
  finish Hleft.
Qed.

(** The vision completion arrives in the expected shape and the stream
    refuses its line: the inner handler prints that exception. *)
Lemma async_main_vision_refused_W v4 c4 p :
  outcome (n ((((wi ++ exchange AsyncClient r1) ++ exchange AsyncClient r2)
                 ++ exchange AsyncClient r3) ++ [Opened AsyncClient]) r4)
    = Ok v4 ->
  has_content v4 c4 ->
  c (o ++ lines) ("Vision Response: " +:+ py_str c4 +:+ LF) = Some p ->
  c (o ++ lines) (fallback (print_exn p)) = None ->
  python_httpx_client.main (World e o hp wi n c)
  = finished (fallback (print_exn p)).
Proof using All.
  intros H4 Hc4 Hline Hfallback. vision_example.
  rewrite <- Hleft in Hline, Hfallback.
  answered (async_chat_W _ b h _ _ _ _ _ _ _ _ _ _ _) Hlive H4.
  rewrite (content_chain _ _ _ _ Hc4).
  rewrite (print_last_refused_W _ _ _ _ _ _ _ _ Hline). cbv beta iota.
  printed_last Hfallback.
  finish Hleft.
Qed.

(** The vision request raises: the inner handler prints the exception. *)
Lemma async_main_vision_raised_W e' :
  outcome (n ((((wi ++ exchange AsyncClient r1) ++ exchange AsyncClient r2)
                 ++ exchange AsyncClient r3) ++ [Opened AsyncClient]) r4)
    = Raise e' ->
  c (o ++ lines) (fallback e') = None ->
  python_httpx_client.main (World e o hp wi n c) = finished (fallback e').
Proof using All.
  intros H4 Hfallback. vision_example. rewrite <- Hleft in Hfallback.
  raised (async_chat_W _ b h _ _ _ _ _ _ _ _ _ _ _) Hlive H4.
  printed_last Hfallback.
  finish Hleft.
Qed.

(** The vision completion arrives without the expected shape: the inner
    handler prints the subscript error. *)
Lemma async_main_vision_shape_W v4 :
  outcome (n ((((wi ++ exchange AsyncClient r1) ++ exchange AsyncClient r2)
                 ++ exchange AsyncClient r3) ++ [Opened AsyncClient]) r4)
    = Ok v4 ->
  (forall c4, ~ has_content v4 c4) ->
  exists e', subscript_error e'
    /\ (c (o ++ lines) (fallback e') = None ->
        python_httpx_client.main (World e o hp wi n c)
        = finished (fallback e')).
Proof using All.
  intros H4 Hshape.
  destruct (content_chain_cases v4) as [[c4 Hc4]|(e' & Hse & He)];
    [by destruct (Hshape c4)|].
  exists e'. split; [done|]. intros Hfallback.
  vision_example. rewrite <- Hleft in Hfallback.
  answered (async_chat_W _ b h _ _ _ _ _ _ _ _ _ _ _) Hlive H4.
  rewrite He. cbv beta iota. printed_last Hfallback.
  finish Hleft.
Qed.

End AsyncAnswered.

Section AsyncShape.
  Context `{!Runtime}.

(** A first completion without the expected shape. *)
Lemma async_main_shape_W e o hp wi n c token models v2 :
  e !! "AWS_BEARER_TOKEN_BEDROCK" = Some token ->
  token <> placeholder_token ->
  let b := rstrip "/" (default "https://openai.ez2.click/"
                         (e !! "BEDROCK_OPENAI_BASE_URL")) in
  let h := stored_headers token in
  let r1 := models_request b h in
  let r2 := async_chat_request b h async_main_messages "gpt-3.5-turbo" 0.7 500
              false in
  let lines :=
    ["🚀 Bedrock OpenAI Proxy Client Examples" +:+ LF;
     "📋 Listing available models...";
     "Available models: " +:+ json_dumps_indent2 models +:+ LF;
     "💬 OpenAI-compatible chat completion..."] in
  outcome (n (wi ++ [Opened AsyncClient]) r1) = Ok models ->
  outcome (n ((wi ++ exchange AsyncClient r1) ++ [Opened AsyncClient]) r2)
    = Ok v2 ->
  (forall c, ~ has_content v2 c) ->
  accepted c o lines ->
  exists e', subscript_error e'
    /\ (c (o ++ lines) ("❌ Error: " +:+ exn_str e') = None ->
        python_httpx_client.main (World e o hp wi n c)
        = (Ok tt,
           World e (o ++ lines ++ ["❌ Error: " +:+ exn_str e'])
             (hp ++ [Instance (Some b) (Some h)])
             (wi ++ exchange AsyncClient r1 ++ exchange AsyncClient r2) n c)).
Proof.
  intros Henv Hne b h r1 r2 lines H1 H2 Hshape (A1 & A2 & A3 & A4 & _).
  assert (Hlive : forall o' wi',
    live (length hp) b h
      (World e o' (hp ++ [Instance (Some b) (Some h)]) wi' n c))
    by (intros; apply live_W).
  lines_so_far A4 (o ++ lines).
  destruct (content_chain_cases v2) as [[c0 Hc]|(e' & Hse & He)];
    [by destruct (Hshape c0)|].
  exists e'. split; [done|]. rewrite <- Hleft. intros A5.
  unfold python_httpx_client.main.
  enter_W Henv Hne async_new_W A1 A2.
  answered (async_models_W _ b h _ _ _ _ _ _) Hlive H1. printed A3. printed A4.
  answered (async_chat_W _ b h _ _ _ _ _ _ _ _ _ _ _) Hlive H2.
  rewrite He.
  destruct e'; try done; cbv beta iota; printed_last A5;
    by rewrite <- !app_assoc.
Qed.

(** The outcome of a request that does not get a 2xx answer in JSON. *)
Lemma outcome_raises rp e' :
  (exists f, rp = Fails f /\ e' = TransportError f)
  \/ (exists resp,
        rp = Responds resp
        /\ ~ (200 <= status_code resp <= 299)
        /\ e' = HTTPStatusError resp)
  \/ (exists resp,
        rp = Responds resp
        /\ 200 <= status_code resp <= 299
        /\ json_loads (text resp) = None
        /\ e' = JSONDecodeError (text resp)) ->
  outcome rp = Raise e'.
Proof.
  intros [(f & -> & ->)|[(resp & -> & Hs & ->)|(resp & -> & Hs & Hbody & ->)]].
  - done.
  - by apply outcome_status.
  - by apply outcome_undecodable.
Qed.

End AsyncShape.

(** X13. The synchronous driver, start to end. With a token, when the
    service answers the listing and the two chat completions with 2xx and
    JSON, the completions in the shape [choices[0].message.content] and the
    first with a [usage], and standard output takes the eight lines below,
    the driver sends exactly these three requests, in this order, prints
    those eight lines, with the listing rendered by [json.dumps(indent=2)]
    and the contents and the usage by [str], and returns normally. *)
Theorem sync_driver_completes `{!Runtime} w token models v2 c2 u2 v3 c3 :
  environ w !! "AWS_BEARER_TOKEN_BEDROCK" = Some token ->
  token <> placeholder_token ->
  let b := rstrip "/" (sync_env_base_url w) in
  let h := stored_headers token in
  let r1 := models_request b h in
  let r2 := sync_chat_request b h sync_main_messages "gpt-3.5-turbo" 0.7 200 in
  let r3 := sync_chat_request b h sync_main_conversation "gpt-4" 0.5 300 in
  let lines :=
    ["🚀 Bedrock OpenAI Proxy Synchronous Client Example" +:+ LF;
     "📋 Listing available models...";
     "Available models: " +:+ json_dumps_indent2 models +:+ LF;
     "💬 Simple chat completion...";
     "Response: " +:+ py_str c2 +:+ LF;
     "Usage: " +:+ py_str u2 +:+ LF;
     "🗣️  Multi-turn conversation...";
     "Response: " +:+ py_str c3 +:+ LF] in
  answers w (wire w ++ [Opened Client]) r1 models ->
  answers w (wire w ++ exchange Client r1 ++ [Opened Client]) r2 v2 ->
  has_content v2 c2 ->
  has_usage v2 u2 ->
  answers w (wire w ++ exchange Client r1 ++ exchange Client r2
               ++ [Opened Client]) r3 v3 ->
  has_content v3 c3 ->
  accepted (console w) (stdout w) lines ->
  (python_sync_client.main w).1 = Ok tt
  /\ stdout (python_sync_client.main w).2 = stdout w ++ lines
  /\ traffic python_sync_client.main w
     = exchange Client r1 ++ exchange Client r2 ++ exchange Client r3.
Proof.
  intros Henv Hne b h r1 r2 r3 lines H1 H2 Hc2 Hu2 H3 Hc3 Hacc.
  destruct w as [e o hp wi n c].
  apply outcome_answers in H1, H2, H3.
  unfold sync_env_base_url in *.
  cbn [network wire environ console stdout] in *.
  rewrite app_assoc in H2. repeat rewrite app_assoc in H3. unfold traffic.
  rewrite (sync_main_W e o hp wi n c token models v2 c2 u2 v3 c3 Henv Hne
             H1 H2 Hc2 Hu2 H3 Hc3 Hacc).
  cbn [fst snd stdout wire].
  split; [done|]. split; [done|]. apply drop_app_length.
Qed.

Lemma completion_answers history r :
  @answers completion_runtime
    (example_env_world "bedrock-api-key-abc" None
       (Responds (Response 200 "{completion}")))
    history r completion_value.
Proof. exists (Response 200 "{completion}"). repeat split; cbn; lia. Defined.

Lemma completion_has_content : has_content completion_value (JStr "Hi").
Proof.
  unfold completion_value. eexists _, _, _, _. repeat split; reflexivity.
Defined.

Lemma completion_has_usage : has_usage completion_value (JInt 7).
Proof. unfold completion_value. eexists. repeat split; reflexivity. Defined.

Lemma sync_driver_completes_witness :
  stdout (@python_sync_client.main completion_runtime
            (example_env_world "bedrock-api-key-abc" None
               (Responds (Response 200 "{completion}")))).2
  = ["🚀 Bedrock OpenAI Proxy Synchronous Client Example" +:+ LF;
     "📋 Listing available models...";
     "Available models: (json)" +:+ LF;
     "💬 Simple chat completion...";
     "Response: Hi" +:+ LF;
     "Usage: (value)" +:+ LF;
     "🗣️  Multi-turn conversation...";
     "Response: Hi" +:+ LF].
Proof.
  destruct (@sync_driver_completes completion_runtime
              (example_env_world "bedrock-api-key-abc" None
                 (Responds (Response 200 "{completion}")))
              "bedrock-api-key-abc" completion_value completion_value
              (JStr "Hi") (JInt 7) completion_value (JStr "Hi") eq_refl)
    as (_ & Hout & _).
  - discriminate.
  - apply completion_answers.
  - apply completion_answers.
  - apply completion_has_content.
  - apply completion_has_usage.
  - apply completion_answers.
  - apply completion_has_content.
  - apply example_accepted.
  - exact Hout.
Defined.




Lemma empty_object_answers history r :
  @answers example_runtime
    (example_env_world "bedrock-api-key-abc" None
       (Responds (Response 200 "{}")))
    history r (JDict ∅).
Proof. exists (Response 200 "{}"). repeat split; cbn; lia. Defined.

Lemma empty_object_shapeless c : ~ has_content (JDict ∅) c.
Proof. intros (d & dc & dm & others & [= <-] & Hd & _). done. Defined.

